(** * Neo TTS: voice catalogue, backend registry and generation endpoint

    A shallow embedding of [app/app.py] and [models/kokoro.py].

    - Python [str] values are Rocq [string]s holding the UTF-8 encoding of
      the text.  Equality and concatenation coincide with Python's; length,
      slicing and [strip] go through [PyStr.chars], which cuts the byte
      sequence at code-point boundaries.
    - Python [dict]s are stdpp [gmap]s; of [pipeline.voices] the code reads
      the keys only, in insertion order, so that dict is the list of its keys.
    - Module-level globals ([_model_modules], [_kokoro_pipeline]), the files
      written by [sf.write] and the CSV ledger live in a [World] record that
      is threaded through a state-and-exception monad [py].
    - Everything the repository does not own (the module importer, the
      Kokoro pipeline, the file system, the clock) is an [Env] record of
      outcomes; theorems quantify over it. *)

From stdpp Require Import gmap strings list fin_maps pretty.
From Stdlib Require Import Ascii QArith.

Open Scope string_scope.

(** ** Python strings *)

Module PyStr.

(** A byte [10xxxxxx] continues the code point started before it. *)
Definition is_continuation (a : ascii) : bool :=
  let n := N_of_ascii a in ((128 <=? n) && (n <? 192))%N.

Definition starts_with_continuation (s : string) : bool :=
  match s with
  | EmptyString => false
  | String a _ => is_continuation a
  end.

(** The characters of a [str], each as the bytes that encode it. *)
Fixpoint chars (s : string) : list string :=
  match s with
  | EmptyString => []
  | String a s' =>
      match chars s' with
      | c :: cs =>
          if starts_with_continuation s' then String a c :: cs
          else String a EmptyString :: c :: cs
      | [] => [String a EmptyString]
      end
  end.

Definition join (cs : list string) : string := String.concat "" cs.

(** [len(s)] *)
Definition len (s : string) : nat := length (chars s).

(** [s[:n]] for a non-negative [n] *)
Definition slice_to (n : nat) (s : string) : string := join (take n (chars s)).

(** UTF-8 encoding of one code point. *)
Definition byte (n : N) : ascii := ascii_of_N n.

Definition utf8 (cp : N) : string :=
  (if cp <? 128 then String (byte cp) EmptyString
   else if cp <? 2048 then
     String (byte (192 + cp / 64)) (String (byte (128 + cp mod 64)) EmptyString)
   else if cp <? 65536 then
     String (byte (224 + cp / 4096))
       (String (byte (128 + (cp / 64) mod 64))
          (String (byte (128 + cp mod 64)) EmptyString))
   else
     String (byte (240 + cp / 262144))
       (String (byte (128 + (cp / 4096) mod 64))
          (String (byte (128 + (cp / 64) mod 64))
             (String (byte (128 + cp mod 64)) EmptyString))))%N.

(** The code points [str.strip()] removes when called without argument:
    those for which [str.isspace] holds. *)
Definition whitespace_code_points : list N :=
  [9; 10; 11; 12; 13; 28; 29; 30; 31; 32; 133; 160; 5760;
   8192; 8193; 8194; 8195; 8196; 8197; 8198; 8199; 8200; 8201; 8202;
   8232; 8233; 8239; 8287; 12288]%N.

Definition isspace (c : string) : bool :=
  bool_decide (c ∈ utf8 <$> whitespace_code_points).

Fixpoint lstrip_chars (cs : list string) : list string :=
  match cs with
  | c :: cs' => if isspace c then lstrip_chars cs' else cs
  | [] => []
  end.

Definition rstrip_chars (cs : list string) : list string :=
  reverse (lstrip_chars (reverse cs)).

(** [s.strip()] *)
Definition strip (s : string) : string :=
  join (rstrip_chars (lstrip_chars (chars s))).

(** Truthiness of a [str]: [not s] holds exactly for the empty string. *)
Definition falsy (s : string) : bool :=
  match s with EmptyString => true | _ => false end.

End PyStr.

(** ** Exceptions, world and environment *)

(** The exception classes the code names or can meet; all of them derive
    from [Exception].  [ImportError] stands for the class and its
    subclasses ([ModuleNotFoundError]). *)
Inductive exn_class :=
  | ImportError | ValueError | RuntimeError | KeyError | AttributeError | OSError
  | OtherError.

#[global] Instance exn_class_eq_dec : EqDecision exn_class.
Proof. solve_decision. Defined.

(** An exception object; [exn_msg] is [str(e)]. *)
Record exn := Exn { exn_cls : exn_class; exn_msg : string }.

#[global] Instance exn_eq_dec : EqDecision exn.
Proof. solve_decision. Defined.

Inductive outcome (A : Type) :=
  | Ret (a : A)
  | Raise (e : exn).
Arguments Ret {A} a.
Arguments Raise {A} e.

(** Amplitudes are opaque to this code, which only moves them around. *)
Definition sample : Type := Z.

(** What [sf.write(path, data, samplerate)] was handed. *)
Record Wav := { wav_data : list sample; wav_rate : N }.

(** The module objects [MODELS] can name. *)
Inductive py_module := ModelsKokoro.

(** A [KPipeline]; of its state the code reads the keys of [pipeline.voices],
    in insertion order. *)
Record Pipeline := { voices : list string }.

(** One data line of [logs/results.csv].  [row_duration] is the quotient
    [len(audio) / sr] that the code prints with two decimals. *)
Record LedgerRow := {
  row_timestamp : string;
  row_model : string;
  row_speaker : string;
  row_text : string;
  row_duration : Q;
  row_output_path : string
}.

Inductive csv_line :=
  | Header (columns : list string)
  | Row (r : LedgerRow)
  | Torn (fragment : string).               (* a line a failed write cut short *)

(** Calls on collaborators, oldest first. *)
Inductive event :=
  | EvImportModule (name : string)          (* importlib.import_module(name) *)
  | EvKPipeline                             (* KPipeline(lang_code='a', ...) *)
  | EvSynthesize (text voice : string)      (* pipeline(text, voice=voice) *)
  | EvLoggerError (msg : string).           (* app.logger.error(msg) *)

#[global] Instance event_eq_dec : EqDecision event.
Proof. solve_decision. Defined.

Record World := {
  model_modules : gmap string py_module;   (* app._model_modules *)
  kokoro_pipeline : option Pipeline;       (* models.kokoro._kokoro_pipeline *)
  output_files : gmap string Wav;          (* audio files, by path *)
  results_csv : option (list csv_line);    (* the ledger; None while absent *)
  events : list event
}.

Definition init_world : World :=
  {| model_modules := ∅; kokoro_pipeline := None; output_files := ∅;
     results_csv := None; events := [] |}.

(** How the collaborators answer during one request. *)
Record Env := {
  (* the exception importlib.import_module(name) raises, if any *)
  env_import_error : string → option exn;
  (* [from kokoro import KPipeline] and the constructor call: the voices
     of the fresh pipeline, or the exception raised *)
  env_kpipeline : outcome (list string);
  (* VOICES_DIR: None when absent, else the stems of its *.pt files in
     glob order, each with whether torch.load succeeds on it *)
  env_voices_dir : option (list (string * bool));
  (* running the generator pipeline(text, voice=voice) to its end: the
     audio of each result, or the exception raised on the way *)
  env_synthesize : string → string → outcome (list (list sample));
  (* the exception sf.write raises for a path, if any *)
  env_sf_write_error : string → option exn;
  (* what a failing sf.write leaves at the path: None when it raised
     before opening the path, else the file it had created or truncated
     (and may have partly filled) when it raised *)
  env_sf_write_residue : string → option Wav;
  (* whether soundfile can read a file back *)
  env_sf_read_fails : string → bool;
  (* the exception met when opening or appending to results.csv, if any *)
  env_ledger_error : option exn;
  (* how far a failing append got: None when results.csv could not be
     opened; Some (n, torn) when it was opened, and so exists, n of the
     lines to write reached it whole and, if torn is given and lines were
     left, that fragment of the next one *)
  env_ledger_progress : option (nat * option string);
  (* repr of a list of str, as an f-string prints list(d.keys()) *)
  env_repr : list string → string;
  (* int(time.time()) and time.strftime("%Y-%m-%d %H:%M:%S") *)
  env_time : Z;
  env_strftime : string;
  (* os.path.dirname(os.path.abspath(__file__)) of app.py *)
  env_app_dir : string
}.

(** ** The state-and-exception monad *)

Definition py (A : Type) : Type := World → outcome A * World.

#[global] Instance py_ret : MRet py := λ A a w, (Ret a, w).

#[global] Instance py_bind : MBind py := λ A B f m w,
  match m w with
  | (Ret a, w') => f a w'
  | (Raise e, w') => (Raise e, w')
  end.

Definition raise {A} (e : exn) : py A := λ w, (Raise e, w).

(** [try: m  except Exception as e: h e]; what [m] did to the world before
    raising stays done. *)
Definition try_except {A} (m : py A) (h : exn → py A) : py A := λ w,
  match m w with
  | (Ret a, w') => (Ret a, w')
  | (Raise e, w') => h e w'
  end.

Definition gets {A} (f : World → A) : py A := λ w, (Ret (f w), w).

Definition modify (f : World → World) : py unit := λ w, (Ret tt, f w).

Definition lift_outcome {A} (o : outcome A) : py A := λ w, (o, w).

Definition set_model_modules (m : gmap string py_module) (w : World) : World :=
  {| model_modules := m; kokoro_pipeline := kokoro_pipeline w;
     output_files := output_files w; results_csv := results_csv w;
     events := events w |}.

Definition set_kokoro_pipeline (p : option Pipeline) (w : World) : World :=
  {| model_modules := model_modules w; kokoro_pipeline := p;
     output_files := output_files w; results_csv := results_csv w;
     events := events w |}.

Definition set_output_files (f : gmap string Wav) (w : World) : World :=
  {| model_modules := model_modules w; kokoro_pipeline := kokoro_pipeline w;
     output_files := f; results_csv := results_csv w; events := events w |}.

Definition set_results_csv (c : option (list csv_line)) (w : World) : World :=
  {| model_modules := model_modules w; kokoro_pipeline := kokoro_pipeline w;
     output_files := output_files w; results_csv := c; events := events w |}.

Definition add_event (ev : event) (w : World) : World :=
  {| model_modules := model_modules w; kokoro_pipeline := kokoro_pipeline w;
     output_files := output_files w; results_csv := results_csv w;
     events := events w ++ [ev] |}.

Definition emit (ev : event) : py unit := modify (add_event ev).

(** [sf.write(path, data, samplerate)] *)
Definition sf_write (env : Env) (path : string) (data : list sample) (rate : N)
  : py unit :=
  match env_sf_write_error env path with
  | Some e =>
      match env_sf_write_residue env path with
      | Some residue =>
          modify (λ w, set_output_files (<[path := residue]> (output_files w)) w)
      | None => mret tt
      end;;
      raise e
  | None =>
      modify (λ w, set_output_files
        (<[path := {| wav_data := data; wav_rate := rate |}]> (output_files w)) w)
  end.

(** [audio, sr = sf.read(path)] reduced to [(len(audio), sr)]; [None] when
    the call raises. *)
Definition sf_read (env : Env) (path : string) (w : World) : option (nat * N) :=
  if env_sf_read_fails env path then None
  else (λ f, (length (wav_data f), wav_rate f)) <$> output_files w !! path.

(** The best-effort probe used twice in app.py:
    [duration = 0.0; try: audio, sr = sf.read(p); duration = len(audio) / sr
     except: pass].  A zero rate raises [ZeroDivisionError], swallowed too. *)
Definition duration_of (env : Env) (path : string) (w : World) : Q :=
  match sf_read env path w with
  | Some (n, Npos r) => (Z.of_nat n # r)
  | _ => 0%Q
  end.

Definition probe_duration (env : Env) (path : string) : py Q :=
  gets (duration_of env path).

(** ** [models/kokoro.py] *)

Module Kokoro.


(** The entries of the dict literal returned by [_get_voice_mapping]. *)
Definition voice_mapping_items : list (string * string) := [
    ("🇺🇸 Alloy 🚺 (C)", "af_alloy");
    ("🇺🇸 Aoede 🚺 (C+)", "af_aoede");
    ("🇺🇸 Bella 🚺🔥 (A-)", "af_bella");
    ("🇺🇸 Heart 🚺❤️ (A)", "af_heart");
    ("🇺🇸 Jessica 🚺 (D)", "af_jessica");
    ("🇺🇸 Kore 🚺 (C+)", "af_kore");
    ("🇺🇸 Nicole 🚺🎧 (B-)", "af_nicole");
    ("🇺🇸 Nova 🚺 (C)", "af_nova");
    ("🇺🇸 River 🚺 (D)", "af_river");
    ("🇺🇸 Sarah 🚺 (C+)", "af_sarah");
    ("🇺🇸 Sky 🚺 (C-)", "af_sky");
    ("🇺🇸 Adam 🚹 (F+)", "am_adam");
    ("🇺🇸 Echo 🚹 (D)", "am_echo");
    ("🇺🇸 Eric 🚹 (D)", "am_eric");
    ("🇺🇸 Fenrir 🚹 (C+)", "am_fenrir");
    ("🇺🇸 Liam 🚹 (D)", "am_liam");
    ("🇺🇸 Michael 🚹 (C+)", "am_michael");
    ("🇺🇸 Onyx 🚹 (D)", "am_onyx");
    ("🇺🇸 Puck 🚹 (C+)", "am_puck");
    ("🇺🇸 Santa 🚹 (D-)", "am_santa");
    ("🇬🇧 Alice 🚺 (D)", "bf_alice");
    ("🇬🇧 Emma 🚺 (B-)", "bf_emma");
    ("🇬🇧 Isabella 🚺 (C)", "bf_isabella");
    ("🇬🇧 Lily 🚺 (D)", "bf_lily");
    ("🇬🇧 Daniel 🚹 (D)", "bm_daniel");
    ("🇬🇧 Fable 🚹 (C)", "bm_fable");
    ("🇬🇧 George 🚹 (C)", "bm_george");
    ("🇬🇧 Lewis 🚹 (D+)", "bm_lewis");
    ("🇯🇵 Alpha 🚺 (C+)", "jf_alpha");
    ("🇯🇵 Gongitsune 🚺 (C)", "jf_gongitsune");
    ("🇯🇵 Nezumi 🚺 (C-)", "jf_nezumi");
    ("🇯🇵 Tebukuro 🚺 (C)", "jf_tebukuro");
    ("🇯🇵 Kumo 🚹 (C-)", "jm_kumo");
    ("🇨🇳 Xiaobei 🚺 (D)", "zf_xiaobei");
    ("🇨🇳 Xiaoni 🚺 (D)", "zf_xiaoni");
    ("🇨🇳 Xiaoxiao 🚺 (D)", "zf_xiaoxiao");
    ("🇨🇳 Xiaoyi 🚺 (D)", "zf_xiaoyi");
    ("🇨🇳 Yunjian 🚹 (D)", "zm_yunjian");
    ("🇨🇳 Yunxi 🚹 (D)", "zm_yunxi");
    ("🇨🇳 Yunxia 🚹 (D)", "zm_yunxia");
    ("🇨🇳 Yunyang 🚹 (D)", "zm_yunyang");
    ("🇪🇸 Dora 🚺", "ef_dora");
    ("🇪🇸 Alex 🚹", "em_alex");
    ("🇪🇸 Santa 🚹", "em_santa");
    ("🇫🇷 Siwis 🚺 (B-)", "ff_siwis");
    ("🇮🇳 Alpha 🚺 (C)", "hf_alpha");
    ("🇮🇳 Beta 🚺 (C)", "hf_beta");
    ("🇮🇳 Omega 🚹 (C)", "hm_omega");
    ("🇮🇳 Psi 🚹 (C)", "hm_psi");
    ("🇮🇹 Sara 🚺 (C)", "if_sara");
    ("🇮🇹 Nicola 🚹 (C)", "im_nicola");
    ("🇧🇷 Dora 🚺", "pf_dora");
    ("🇧🇷 Alex 🚹", "pm_alex");
    ("🇧🇷 Santa 🚹", "pm_santa")
].

(** The entries of the dict literal [voice_formats] in [list_voices]. *)
Definition voice_formats_items : list (string * string) := [
    ("af_alloy", "🇺🇸 Alloy 🚺 (C)");
    ("af_aoede", "🇺🇸 Aoede 🚺 (C+)");
    ("af_bella", "🇺🇸 Bella 🚺🔥 (A-)");
    ("af_heart", "🇺🇸 Heart 🚺❤️ (A)");
    ("af_jessica", "🇺🇸 Jessica 🚺 (D)");
    ("af_kore", "🇺🇸 Kore 🚺 (C+)");
    ("af_nicole", "🇺🇸 Nicole 🚺🎧 (B-)");
    ("af_nova", "🇺🇸 Nova 🚺 (C)");
    ("af_river", "🇺🇸 River 🚺 (D)");
    ("af_sarah", "🇺🇸 Sarah 🚺 (C+)");
    ("af_sky", "🇺🇸 Sky 🚺 (C-)");
    ("am_adam", "🇺🇸 Adam 🚹 (F+)");
    ("am_echo", "🇺🇸 Echo 🚹 (D)");
    ("am_eric", "🇺🇸 Eric 🚹 (D)");
    ("am_fenrir", "🇺🇸 Fenrir 🚹 (C+)");
    ("am_liam", "🇺🇸 Liam 🚹 (D)");
    ("am_michael", "🇺🇸 Michael 🚹 (C+)");
    ("am_onyx", "🇺🇸 Onyx 🚹 (D)");
    ("am_puck", "🇺🇸 Puck 🚹 (C+)");
    ("am_santa", "🇺🇸 Santa 🚹 (D-)");
    ("bf_alice", "🇬🇧 Alice 🚺 (D)");
    ("bf_emma", "🇬🇧 Emma 🚺 (B-)");
    ("bf_isabella", "🇬🇧 Isabella 🚺 (C)");
    ("bf_lily", "🇬🇧 Lily 🚺 (D)");
    ("bm_daniel", "🇬🇧 Daniel 🚹 (D)");
    ("bm_fable", "🇬🇧 Fable 🚹 (C)");
    ("bm_george", "🇬🇧 George 🚹 (C)");
    ("bm_lewis", "🇬🇧 Lewis 🚹 (D+)");
    ("jf_alpha", "🇯🇵 Alpha 🚺 (C+)");
    ("jf_gongitsune", "🇯🇵 Gongitsune 🚺 (C)");
    ("jf_nezumi", "🇯🇵 Nezumi 🚺 (C-)");
    ("jf_tebukuro", "🇯🇵 Tebukuro 🚺 (C)");
    ("jm_kumo", "🇯🇵 Kumo 🚹 (C-)");
    ("zf_xiaobei", "🇨🇳 Xiaobei 🚺 (D)");
    ("zf_xiaoni", "🇨🇳 Xiaoni 🚺 (D)");
    ("zf_xiaoxiao", "🇨🇳 Xiaoxiao 🚺 (D)");
    ("zf_xiaoyi", "🇨🇳 Xiaoyi 🚺 (D)");
    ("zm_yunjian", "🇨🇳 Yunjian 🚹 (D)");
    ("zm_yunxi", "🇨🇳 Yunxi 🚹 (D)");
    ("zm_yunxia", "🇨🇳 Yunxia 🚹 (D)");
    ("zm_yunyang", "🇨🇳 Yunyang 🚹 (D)");
    ("ef_dora", "🇪🇸 Dora 🚺");
    ("em_alex", "🇪🇸 Alex 🚹");
    ("em_santa", "🇪🇸 Santa 🚹");
    ("ff_siwis", "🇫🇷 Siwis 🚺 (B-)");
    ("hf_alpha", "🇮🇳 Alpha 🚺 (C)");
    ("hf_beta", "🇮🇳 Beta 🚺 (C)");
    ("hm_omega", "🇮🇳 Omega 🚹 (C)");
    ("hm_psi", "🇮🇳 Psi 🚹 (C)");
    ("if_sara", "🇮🇹 Sara 🚺 (C)");
    ("im_nicola", "🇮🇹 Nicola 🚹 (C)");
    ("pf_dora", "🇧🇷 Dora 🚺");
    ("pm_alex", "🇧🇷 Alex 🚹");
    ("pm_santa", "🇧🇷 Santa 🚹")
].

(** A dict literal keeps, for a repeated key, the value written last. *)
Definition dict_literal (items : list (string * string)) : gmap string string :=
  foldl (λ d kv, <[kv.1 := kv.2]> d) ∅ items.

Definition _get_voice_mapping : gmap string string := dict_literal voice_mapping_items.

Definition voice_formats : gmap string string := dict_literal voice_formats_items.

(** [if voice in voice_mapping: voice = voice_mapping[voice]] *)
Definition resolve_voice (voice : string) : string :=
  let voice_mapping := _get_voice_mapping in
  match voice_mapping !! voice with
  | Some code => code
  | None => voice
  end.

(** [voice_formats.get(voice, f"{voice} (Unknown)")] *)
Definition format_voice (voice : string) : string :=
  default (voice ++ " (Unknown)") (voice_formats !! voice).

(** The formatting loop of [list_voices]: [formatted_voices] starts empty
    and gets one label appended per raw voice. *)
Fixpoint format_loop (raw_voices formatted_voices : list string) : list string :=
  match raw_voices with
  | [] => formatted_voices
  | voice :: rest => format_loop rest (formatted_voices ++ [format_voice voice])
  end.

Definition formatted_voices (raw_voices : list string) : list string :=
  format_loop raw_voices [].

(** The list returned by the [except] branch of [list_voices]. *)
Definition fallback_voices : list string := [
    "🇺🇸 Alloy 🚺 (C)";
    "🇺🇸 Adam 🚹 (F+)";
    "🇬🇧 Emma 🚺 (B-)";
    "🇬🇧 Daniel 🚹 (D)"
].

(** [from kokoro import KPipeline; pipeline = KPipeline(...)] *)
Definition new_pipeline (env : Env) : py Pipeline :=
  emit EvKPipeline;;
  vs ← lift_outcome (env_kpipeline env);
  mret {| voices := vs |}.

(** [pipeline.voices[voice_name] = voice_tensor] on the keys: a new key goes
    last, a present one keeps its place. *)
Definition dict_set_key (k : string) (keys : list string) : list string :=
  if decide (k ∈ keys) then keys else keys ++ [k].

(** The loop over [VOICES_DIR.glob("*.pt")]; a file torch.load rejects is
    skipped with a warning. *)
Fixpoint load_voice_files (files : list (string * bool)) (keys : list string)
  : list string :=
  match files with
  | [] => keys
  | (voice_name, true) :: rest => load_voice_files rest (dict_set_key voice_name keys)
  | (_, false) :: rest => load_voice_files rest keys
  end.

Definition _load_kokoro_model (env : Env) : py Pipeline :=
  cached ← gets kokoro_pipeline;
  match cached with
  | Some pipeline => mret pipeline
  | None =>
      try_except
        (pipeline ← new_pipeline env;
         let pipeline :=
           match env_voices_dir env with
           | Some files => {| voices := load_voice_files files (voices pipeline) |}
           | None => pipeline
           end in
         modify (set_kokoro_pipeline (Some pipeline));;
         mret pipeline)
        (λ e,
           match exn_cls e with
           | ImportError =>
               raise (Exn ImportError "Kokoro not installed. Run setup-neo-tts.sh first")
           | _ => raise (Exn RuntimeError ("Failed to load Kokoro model: " ++ exn_msg e))
           end)
  end.

Definition list_voices (env : Env) : py (list string) :=
  try_except
    (pipeline ← _load_kokoro_model env;
     let raw_voices := voices pipeline in
     mret (formatted_voices raw_voices))
    (λ _, mret fallback_voices).

(** [results = pipeline(text, voice=voice)] consumed by the collecting loop *)
Definition run_pipeline (env : Env) (text voice : string) : py (list (list sample)) :=
  emit (EvSynthesize text voice);;
  lift_outcome (env_synthesize env text voice).

Definition generate_audio (env : Env) (text : string) (voice : option string)
    (output_path : string) : py string :=
  let voice := default "af_alloy" voice in
  try_except
    (pipeline ← _load_kokoro_model env;
     let voice := resolve_voice voice in
     if decide (voice ∈ voices pipeline) then
       audio_segments ← run_pipeline env text voice;
       match audio_segments with
       | [] => raise (Exn RuntimeError "No audio generated from Kokoro pipeline")
       | _ :: _ =>
           (* torch.cat(audio_segments, dim=0) *)
           let combined_audio := concat audio_segments in
           sf_write env output_path combined_audio 24000%N;;
           mret output_path
       end
     else
       raise (Exn ValueError ("Voice '" ++ voice ++ "' not available. Available: "
                              ++ env_repr env (voices pipeline))))
    (λ e, raise (Exn RuntimeError ("Kokoro generation failed: " ++ exn_msg e))).

End Kokoro.

(** ** [app/app.py] *)

Module App.

Record model_info := {
  info_name : string;
  info_description : string;
  info_module : string
}.

Definition MODELS : gmap string model_info :=
  {[ "kokoro" := {| info_name := "Kokoro";
                    info_description := "Fast lightweight TTS for local mac";
                    info_module := "models.kokoro" |} ]}.

(** [os.path.join(app_dir, "static", "output")] and [os.path.join] of it
    with a relative file name. *)
Definition OUTPUT_DIR (env : Env) : string := env_app_dir env ++ "/static/output".

(** The modules of this repository that [MODELS] refers to. *)
Definition importable (module_name : string) : option py_module :=
  if decide (module_name = "models.kokoro") then Some ModelsKokoro else None.

(** [importlib.import_module(module_name)] *)
Definition import_module (env : Env) (module_name : string) : py py_module :=
  emit (EvImportModule module_name);;
  match env_import_error env module_name with
  | Some e => raise e
  | None =>
      match importable module_name with
      | Some m => mret m
      | None => raise (Exn ImportError ("No module named '" ++ module_name ++ "'"))
      end
  end.

Definition get_model_module (env : Env) (model_name : string) : py py_module :=
  loaded ← gets model_modules;
  (if decide (loaded !! model_name = None) then
     match MODELS !! model_name with
     | None => raise (Exn ValueError ("Unknown model: " ++ model_name))
     | Some info =>
         let module_name := info_module info in
         try_except
           (m ← import_module env module_name;
            modify (λ w, set_model_modules (<[model_name := m]> (model_modules w)) w))
           (λ e,
              match exn_cls e with
              | ImportError =>
                  raise (Exn RuntimeError
                           ("Failed to load model " ++ model_name ++ ": " ++ exn_msg e))
              | _ => raise e
              end)
     end
   else mret tt);;
  loaded ← gets model_modules;
  match loaded !! model_name with
  | Some m => mret m
  | None => raise (Exn KeyError model_name)
  end.

(** [speaker or "default"] *)
Definition speaker_or_default (speaker : option string) : string :=
  match speaker with
  | Some s => if PyStr.falsy s then "default" else s
  | None => "default"
  end.

(** [text[:100] + "..." if len(text) > 100 else text] *)
Definition text_excerpt (text : string) : string :=
  if decide (100 < PyStr.len text)%nat then PyStr.slice_to 100 text ++ "..." else text.

Definition ledger_header : list string :=
  ["timestamp"; "model"; "speaker"; "text"; "duration"; "output_path"].

(** What of the lines to write a failed append left behind. *)
Definition written_before_failure (n : nat) (torn : option string)
    (lines : list csv_line) : list csv_line :=
  take n lines ++
  (if decide (n < length lines)%nat then
     match torn with Some fragment => [Torn fragment] | None => [] end
   else []).

(** [with open(log_file, 'a', newline='') as f: ...]: the header when the
    file was absent, then the row.  Opening creates the file; a failure
    after that leaves what had reached the file by then. *)
Definition append_rows (env : Env) (file_exists : bool) (r : LedgerRow) : py unit :=
  match env_ledger_error env with
  | Some e =>
      match env_ledger_progress env with
      | Some (n, torn) =>
          modify (λ w,
            let old := default [] (results_csv w) in
            let head := if file_exists then [] else [Header ledger_header] in
            set_results_csv
              (Some (old ++ written_before_failure n torn (head ++ [Row r]))%list) w)
      | None => mret tt
      end;;
      raise e
  | None =>
      modify (λ w,
        let old := default [] (results_csv w) in
        let head := if file_exists then [] else [Header ledger_header] in
        set_results_csv (Some (old ++ head ++ [Row r])%list) w)
  end.

Definition log_generation (env : Env) (model : string) (speaker : option string)
    (text output_path : string) : py unit :=
  file_exists ← gets (λ w, bool_decide (is_Some (results_csv w)));
  duration ← probe_duration env output_path;
  append_rows env file_exists
    {| row_timestamp := env_strftime env;
       row_model := model;
       row_speaker := speaker_or_default speaker;
       row_text := text_excerpt text;
       row_duration := duration;
       row_output_path := output_path |}.

(** The JSON bodies the endpoints send.  Of the generation result the
    wall-clock time and the GPU snapshot are telemetry and left out. *)
Inductive body :=
  | ErrorBody (error : string)
  | VoicesBody (voices : list string)
  | GenerateBody (audio_url model : string) (voice : option string) (audio_duration : Q).

Record Response := { status : nat; payload : body }.

(** A view function: an exception that escapes it is answered by the
    outermost [except Exception as e: return jsonify({"error": str(e)}), 500]. *)
Definition endpoint (m : py Response) : World → Response * World := λ w,
  match m w with
  | (Ret r, w') => (r, w')
  | (Raise e, w') => ({| status := 500; payload := ErrorBody (exn_msg e) |}, w')
  end.

(** [module.list_voices()] and [module.generate_audio(...)] *)
Definition module_list_voices (m : py_module) (env : Env) : py (list string) :=
  match m with ModelsKokoro => Kokoro.list_voices env end.

Definition module_generate_audio (m : py_module) (env : Env) (text : string)
    (voice : option string) (output_path : string) : py string :=
  match m with ModelsKokoro => Kokoro.generate_audio env text voice output_path end.

Definition get_voices (env : Env) (model_name : string) : World → Response * World :=
  endpoint
    (module ← get_model_module env model_name;
     voices ← module_list_voices module env;
     mret {| status := 200; payload := VoicesBody voices |}).

(** The ["text"] entry of the posted JSON object. *)
Inductive json_text :=
  | TextMissing
  | TextNull
  | TextStr (s : string).

(** The JSON object posted to [/api/generate].  [data.get("model")] and
    [data.get("voice")] are [None] when the key is missing or null, and a
    string otherwise. *)
Record Request := {
  req_model : option string;
  req_voice : option string;
  req_text : json_text
}.

(** [data.get("text", "")]: the default stands in for a missing key only. *)
Definition get_text (t : json_text) : option string :=
  match t with
  | TextMissing => Some ""
  | TextNull => None
  | TextStr s => Some s
  end.

(** [data.get("text", "").strip()] *)
Definition stripped_text (t : json_text) : py string :=
  match get_text t with
  | Some s => mret (PyStr.strip s)
  | None => raise (Exn AttributeError "'NoneType' object has no attribute 'strip'")
  end.

(** [monitor_gpu_usage] and [PerformanceTimer] read the device and the
    clock and write to the log of device_utils; they are left out, as is the
    wall-clock [generation_time]. *)
Definition generate_audio (env : Env) (data : Request) : World → Response * World :=
  endpoint
    (let model_name := req_model data in
     let voice := req_voice data in
     text ← stripped_text (req_text data);
     match model_name with
     | None => mret {| status := 400; payload := ErrorBody "Invalid model" |}
     | Some model_name =>
         if PyStr.falsy model_name || bool_decide (MODELS !! model_name = None) then
           mret {| status := 400; payload := ErrorBody "Invalid model" |}
         else if PyStr.falsy text then
           mret {| status := 400; payload := ErrorBody "Text is required" |}
         else
           module ← get_model_module env model_name;
           let timestamp := env_time env in
           let filename := model_name ++ "_" ++ pretty timestamp ++ ".wav" in
           let output_path := OUTPUT_DIR env ++ "/" ++ filename in
           try_except
             (result_path ← module_generate_audio module env text voice output_path;
              audio_duration ← probe_duration env result_path;
              log_generation env model_name voice text result_path;;
              let web_path := "/static/output/" ++ filename in
              mret {| status := 200;
                      payload := GenerateBody web_path model_name voice audio_duration |})
             (λ e, emit (EvLoggerError ".2f");; raise e)
     end).

End App.

(** ** [app/device_utils.py] *)

Module DeviceUtils.

(** The result of [int / int]: the float nearest to [num / den]. *)
Record quotient := { num : Z; den : Z }.

(** [torch.cuda.get_device_properties(i)] *)
Record cuda_props := {
  props_name : string;
  props_total_memory : Z;
  props_major : Z;
  props_minor : Z
}.

(** What the functions below ask of torch. *)
Record Torch := {
  torch_version : string;                       (* torch.__version__ *)
  cuda_is_available : bool;                     (* torch.cuda.is_available() *)
  cuda_device_count : nat;                      (* torch.cuda.device_count() *)
  cuda_get_device_properties : nat → cuda_props;
  cuda_get_device_name : string;                (* torch.cuda.get_device_name() *)
  (* None when torch.backends has no attribute mps, else
     torch.backends.mps.is_available() *)
  backends_mps : option bool
}.

(** What they ask of platform and psutil. *)
Record Host := {
  platform_system : string;                     (* platform.system() *)
  cpu_count : option Z;                         (* psutil.cpu_count(), may be None *)
  cpu_count_logical : option Z;                 (* psutil.cpu_count(logical=True) *)
  memory_total : Z;                             (* psutil.virtual_memory().total *)
  memory_available : Z                          (* psutil.virtual_memory().available *)
}.

(** [torch.device("cuda")], [torch.device("mps")], [torch.device("cpu")] *)
Inductive device := Cuda | Mps | Cpu.

Definition device_type (d : device) : string :=
  match d with Cuda => "cuda" | Mps => "mps" | Cpu => "cpu" end.

Definition get_optimal_device (t : Torch) : outcome device :=
  if cuda_is_available t then Ret Cuda
  else
    match backends_mps t with
    | None => Raise (Exn AttributeError "module 'torch.backends' has no attribute 'mps'")
    | Some true => Ret Mps
    | Some false => Ret Cpu
    end.

(** One entry of [info["cuda_devices"]]. *)
Record cuda_device := {
  dev_name : string;
  dev_total_memory_gb : quotient;
  dev_major : Z;
  dev_minor : Z
}.

(** The dict [get_device_info] returns; the key "cuda_devices" is set on
    one branch only. *)
Record device_info := {
  info_platform : string;
  info_cpu_count : option Z;
  info_cpu_count_logical : option Z;
  info_memory_total_gb : quotient;
  info_memory_available_gb : quotient;
  info_torch_version : string;
  info_cuda_available : bool;
  info_cuda_device_count : nat;
  info_cuda_devices : option (list cuda_device);
  info_mps_available : bool;
  info_default_device : string;
  info_default_device_name : string
}.

(** [1024**3] *)
Definition GiB : Z := 1073741824.

(** [str(x)] inside an f-string, for [psutil.cpu_count()] *)
Definition str_count (c : option Z) : string :=
  match c with Some n => pretty n | None => "None" end.

Definition get_device_info (h : Host) (t : Torch) : device_info :=
  let cuda := cuda_is_available t in
  let mps_available := default false (backends_mps t) in
  {| info_platform := platform_system h;
     info_cpu_count := cpu_count h;
     info_cpu_count_logical := cpu_count_logical h;
     info_memory_total_gb := {| num := memory_total h; den := GiB |};
     info_memory_available_gb := {| num := memory_available h; den := GiB |};
     info_torch_version := torch_version t;
     info_cuda_available := cuda;
     info_cuda_device_count := if cuda then cuda_device_count t else 0%nat;
     info_cuda_devices :=
       if cuda then
         Some ((λ i, let device_props := cuda_get_device_properties t i in
                     {| dev_name := props_name device_props;
                        dev_total_memory_gb :=
                          {| num := props_total_memory device_props; den := GiB |};
                        dev_major := props_major device_props;
                        dev_minor := props_minor device_props |})
               <$> seq 0 (cuda_device_count t))
       else None;
     info_mps_available := mps_available;
     info_default_device :=
       if cuda then "cuda" else if mps_available then "mps" else "cpu";
     info_default_device_name :=
       if cuda then cuda_get_device_name t
       else if mps_available then "Apple Silicon GPU"
       else "CPU (" ++ str_count (cpu_count h) ++ " cores)" |}.

End DeviceUtils.

(** ** Sample collaborators *)

(** Python's repr of a list of names made of letters, digits and
    underscores, as the sample voices are. *)
Definition plain_repr (keys : list string) : string :=
  "[" ++ String.concat ", " ((λ k, "'" ++ k ++ "'") <$> keys) ++ "]".

(** Kokoro is installed, the cache holds two usable voice files and a
    broken one, and every file operation succeeds. *)
Definition env_ok : Env :=
  {| env_import_error := λ _, None;
     env_kpipeline := Ret [];
     env_voices_dir := Some [("af_bella", true); ("am_adam", true); ("xx_broken", false)];
     env_synthesize := λ _ _, Ret [[1; 2]; [3]; [4; 5]]%Z;
     env_sf_write_error := λ _, None;
     env_sf_write_residue := λ _, None;
     env_sf_read_fails := λ _, false;
     env_ledger_error := None;
     env_ledger_progress := None;
     env_repr := plain_repr;
     env_time := 1700000000;
     env_strftime := "2023-11-14 22:13:20";
     env_app_dir := "/srv/neo-tts/app" |}.

Definition with_import_error (f : string → option exn) (env : Env) : Env :=
  {| env_import_error := f;
     env_kpipeline := env_kpipeline env;
     env_voices_dir := env_voices_dir env;
     env_synthesize := env_synthesize env;
     env_sf_write_error := env_sf_write_error env;
     env_sf_write_residue := env_sf_write_residue env;
     env_sf_read_fails := env_sf_read_fails env;
     env_ledger_error := env_ledger_error env;
     env_ledger_progress := env_ledger_progress env;
     env_repr := env_repr env;
     env_time := env_time env;
     env_strftime := env_strftime env;
     env_app_dir := env_app_dir env |}.

Definition with_kpipeline (o : outcome (list string)) (env : Env) : Env :=
  {| env_import_error := env_import_error env;
     env_kpipeline := o;
     env_voices_dir := env_voices_dir env;
     env_synthesize := env_synthesize env;
     env_sf_write_error := env_sf_write_error env;
     env_sf_write_residue := env_sf_write_residue env;
     env_sf_read_fails := env_sf_read_fails env;
     env_ledger_error := env_ledger_error env;
     env_ledger_progress := env_ledger_progress env;
     env_repr := env_repr env;
     env_time := env_time env;
     env_strftime := env_strftime env;
     env_app_dir := env_app_dir env |}.

Definition with_synthesize (f : string → string → outcome (list (list sample)))
    (env : Env) : Env :=
  {| env_import_error := env_import_error env;
     env_kpipeline := env_kpipeline env;
     env_voices_dir := env_voices_dir env;
     env_synthesize := f;
     env_sf_write_error := env_sf_write_error env;
     env_sf_write_residue := env_sf_write_residue env;
     env_sf_read_fails := env_sf_read_fails env;
     env_ledger_error := env_ledger_error env;
     env_ledger_progress := env_ledger_progress env;
     env_repr := env_repr env;
     env_time := env_time env;
     env_strftime := env_strftime env;
     env_app_dir := env_app_dir env |}.

Definition with_ledger_error (e : option exn) (env : Env) : Env :=
  {| env_import_error := env_import_error env;
     env_kpipeline := env_kpipeline env;
     env_voices_dir := env_voices_dir env;
     env_synthesize := env_synthesize env;
     env_sf_write_error := env_sf_write_error env;
     env_sf_write_residue := env_sf_write_residue env;
     env_sf_read_fails := env_sf_read_fails env;
     env_ledger_error := e;
     env_ledger_progress := env_ledger_progress env;
     env_repr := env_repr env;
     env_time := env_time env;
     env_strftime := env_strftime env;
     env_app_dir := env_app_dir env |}.

(** The ledger cannot be opened for appending. *)
Definition env_ledger_down : Env :=
  with_ledger_error
    (Some (Exn OSError "[Errno 13] Permission denied: '/srv/neo-tts/app/logs/results.csv'"))
    env_ok.

Definition with_ledger_progress (p : option (nat * option string)) (env : Env) : Env :=
  {| env_import_error := env_import_error env;
     env_kpipeline := env_kpipeline env;
     env_voices_dir := env_voices_dir env;
     env_synthesize := env_synthesize env;
     env_sf_write_error := env_sf_write_error env;
     env_sf_write_residue := env_sf_write_residue env;
     env_sf_read_fails := env_sf_read_fails env;
     env_ledger_error := env_ledger_error env;
     env_ledger_progress := p;
     env_repr := env_repr env;
     env_time := env_time env;
     env_strftime := env_strftime env;
     env_app_dir := env_app_dir env |}.

Definition with_sf_write_failure (e : exn) (residue : option Wav) (env : Env) : Env :=
  {| env_import_error := env_import_error env;
     env_kpipeline := env_kpipeline env;
     env_voices_dir := env_voices_dir env;
     env_synthesize := env_synthesize env;
     env_sf_write_error := λ _, Some e;
     env_sf_write_residue := λ _, residue;
     env_sf_read_fails := env_sf_read_fails env;
     env_ledger_error := env_ledger_error env;
     env_ledger_progress := env_ledger_progress env;
     env_repr := env_repr env;
     env_time := env_time env;
     env_strftime := env_strftime env;
     env_app_dir := env_app_dir env |}.

(** The ledger opens, the header goes out, and the row cannot be encoded. *)
Definition env_row_rejected : Env :=
  with_ledger_progress (Some (1%nat, None))
    (with_ledger_error
       (Some (Exn OtherError "'ascii' codec can't encode characters"))
       env_ok).

(** The disk is full: the ledger is opened and nothing reaches it. *)
Definition env_disk_full : Env :=
  with_ledger_progress (Some (0%nat, None))
    (with_ledger_error (Some (Exn OSError "[Errno 28] No space left on device")) env_ok).

(** soundfile opens the output file and then rejects the data. *)
Definition env_write_rejected : Env :=
  with_sf_write_failure
    (Exn OtherError
       "dtype must be one of ['float32', 'float64', 'int16', 'int32'] and not 'float16'")
    (Some {| wav_data := []; wav_rate := 24000 |}) env_ok.

(** The kokoro package is missing: the module imports, the pipeline does not. *)
Definition env_no_kokoro : Env :=
  with_kpipeline (Raise (Exn ImportError "No module named 'kokoro'")) env_ok.

(** Importing models.kokoro dies in soundfile, which raises [OSError]. *)
Definition env_no_sndfile : Env :=
  with_import_error (λ _, Some (Exn OSError "sndfile library not found")) env_ok.

(** Importing models.kokoro fails with [ModuleNotFoundError]. *)
Definition env_no_torch : Env :=
  with_import_error (λ _, Some (Exn ImportError "No module named 'torch'")) env_ok.

(** The pipeline yields no result. *)
Definition env_silent : Env := with_synthesize (λ _ _, Ret []) env_ok.

Definition bella : string := "🇺🇸 Bella 🚺🔥 (A-)".

Definition bella_request : App.Request :=
  {| App.req_model := Some "kokoro";
     App.req_voice := Some bella;
     App.req_text := App.TextStr "Hello world" |}.

(** ** Notions used in the statements *)

(** The voice the backend works with: the default for a missing one, then
    the catalogue's code for a display name. *)
Definition effective_voice (voice : option string) : string :=
  Kokoro.resolve_voice (default "af_alloy" voice).

(** The module cache holds registered models only. *)
Definition cache_ok (w : World) : Prop :=
  ∀ model_name : string,
    App.MODELS !! model_name = None → model_modules w !! model_name = None.

(** The [(text, voice)] pairs the pipeline was called with, oldest first. *)
Fixpoint synth_calls (evs : list event) : list (string * string) :=
  match evs with
  | [] => []
  | EvSynthesize text voice :: rest => (text, voice) :: synth_calls rest
  | _ :: rest => synth_calls rest
  end.

(** How an exception raised by the import leaves [get_model_module]. *)
Definition import_failure (model_name : string) (e : exn) : exn :=
  match exn_cls e with
  | ImportError =>
      Exn RuntimeError ("Failed to load model " ++ model_name ++ ": " ++ exn_msg e)
  | _ => e
  end.

(** The ledger line [log_generation] writes. *)
Definition ledger_row (env : Env) (model : string) (speaker : option string)
    (text output_path : string) (w : World) : LedgerRow :=
  {| row_timestamp := env_strftime env;
     row_model := model;
     row_speaker := App.speaker_or_default speaker;
     row_text := App.text_excerpt text;
     row_duration := duration_of env output_path w;
     row_output_path := output_path |}.

(** The ledger after [log_generation] appended to it. *)
Definition ledger_after (r : LedgerRow) (w : World) : list csv_line :=
  match results_csv w with
  | Some lines => lines ++ [Row r]
  | None => [Header App.ledger_header; Row r]
  end.

(** [s] ends with [suffix]. *)
Fixpoint ends_with (suffix s : string) : bool :=
  bool_decide (s = suffix) ||
  match s with
  | EmptyString => false
  | String _ s' => ends_with suffix s'
  end.

Definition is_row (l : csv_line) : Prop :=
  match l with Row _ => True | Header _ | Torn _ => False end.

(** The world a failed [sf.write] leaves. *)
Definition after_failed_write (env : Env) (path : string) (w : World) : World :=
  match env_sf_write_residue env path with
  | Some residue => set_output_files (<[path := residue]> (output_files w)) w
  | None => w
  end.

(** The world a failed [log_generation] leaves: as it was when
    results.csv could not be opened; else with the file in existence and
    holding, after its old lines, what of the header (due when the file was
    absent) and the row had reached it. *)
Definition after_failed_append (env : Env) (r : LedgerRow) (w : World) : World :=
  match env_ledger_progress env with
  | None => w
  | Some (n, torn) =>
      set_results_csv
        (Some (default [] (results_csv w)
               ++ App.written_before_failure n torn
                    ((if bool_decide (is_Some (results_csv w)) then []
                      else [Header App.ledger_header]) ++ [Row r]))%list) w
  end.

(** A ledger written by [log_generation] alone: absent, or the header
    followed by data rows. *)
Definition ledger_ok (w : World) : Prop :=
  match results_csv w with
  | None => True
  | Some lines => ∃ rows, lines = Header App.ledger_header :: rows ∧ Forall is_row rows
  end.

(** A chunk of [PyStr.chars]: a first byte and the continuation bytes
    that follow it. *)
Definition is_chunk (c : string) : Prop :=
  match c with
  | EmptyString => False
  | String _ rest => Forall (λ a, PyStr.is_continuation a = true) (String.list_ascii_of_string rest)
  end.

(** The chunks [chars] cuts: each a first byte with its continuation
    bytes, and each but the first starting a new character. *)
Definition separated (cs : list string) : Prop :=
  match cs with
  | [] => True
  | c :: rest =>
      is_chunk c ∧ Forall (λ c, is_chunk c ∧ PyStr.starts_with_continuation c = false) rest
  end.

(** A laptop without CUDA, and a torch too old to know of MPS. *)
Definition mac_torch : DeviceUtils.Torch :=
  {| DeviceUtils.torch_version := "2.3.0";
     DeviceUtils.cuda_is_available := false;
     DeviceUtils.cuda_device_count := 0;
     DeviceUtils.cuda_get_device_properties := λ _,
       {| DeviceUtils.props_name := ""; DeviceUtils.props_total_memory := 0;
          DeviceUtils.props_major := 0; DeviceUtils.props_minor := 0 |};
     DeviceUtils.cuda_get_device_name := "";
     DeviceUtils.backends_mps := Some true |}.

Definition old_torch : DeviceUtils.Torch :=
  {| DeviceUtils.torch_version := "1.11.0";
     DeviceUtils.cuda_is_available := false;
     DeviceUtils.cuda_device_count := 0;
     DeviceUtils.cuda_get_device_properties := λ _,
       {| DeviceUtils.props_name := ""; DeviceUtils.props_total_memory := 0;
          DeviceUtils.props_major := 0; DeviceUtils.props_minor := 0 |};
     DeviceUtils.cuda_get_device_name := "";
     DeviceUtils.backends_mps := None |}.

Definition some_host : DeviceUtils.Host :=
  {| DeviceUtils.platform_system := "Darwin";
     DeviceUtils.cpu_count := Some 8%Z;
     DeviceUtils.cpu_count_logical := Some 8%Z;
     DeviceUtils.memory_total := 17179869184;
     DeviceUtils.memory_available := 8589934592 |}.

(** The path [generate_audio] of app.py picks for its output. *)
Definition output_filename (env : Env) (model_name : string) : string :=
  model_name ++ "_" ++ pretty (env_time env) ++ ".wav".

Definition output_path_for (env : Env) (model_name : string) : string :=
  App.OUTPUT_DIR env ++ "/" ++ output_filename env model_name.

(** * The voice catalogue *)

Section Catalogue.

Import Kokoro.

Lemma format_loop_app (raw acc : list string) :
  format_loop raw acc = (acc ++ (format_voice <$> raw))%list.
Proof.
  revert acc. induction raw as [|voice rest IH]; intros acc; simpl.
  - by rewrite app_nil_r.
  - by rewrite IH, <- app_assoc.
Qed.

Lemma formatted_voices_fmap (raw : list string) :
  formatted_voices raw = format_voice <$> raw.
Proof. unfold formatted_voices. by rewrite format_loop_app. Qed.

Lemma formats_to_mapping :
  map_Forall (λ code display, _get_voice_mapping !! display = Some code) voice_formats.
Proof. compute_done. Qed.

Lemma mapping_to_formats :
  map_Forall (λ display code, voice_formats !! code = Some display) _get_voice_mapping.
Proof. compute_done. Qed.

Lemma codes_are_not_display_names :
  map_Forall (λ code _, _get_voice_mapping !! code = None) voice_formats.
Proof. compute_done. Qed.

(** Neither dict literal repeats a key, so each has its 54 entries. *)
Lemma tables_have_no_repeated_key :
  NoDup voice_mapping_items.*1 ∧ NoDup voice_formats_items.*1 ∧
  size _get_voice_mapping = 54%nat ∧ size voice_formats = 54%nat.
Proof.
  split_and!; compute_done.
Qed.

(** C9: the two tables of the catalogue are inverse to each other.  Every
    code of [voice_formats] has its display name as a key of the mapping
    returned by [_get_voice_mapping], which sends it back to that code, so
    that resolving the display name of a known code gives the code; and
    every entry of the mapping comes from [voice_formats] in this way. *)
Theorem catalogue_tables_inverse :
  (∀ code display : string,
     voice_formats !! code = Some display →
     _get_voice_mapping !! display = Some code ∧ resolve_voice display = code) ∧
  (∀ display code : string,
     _get_voice_mapping !! display = Some code →
     voice_formats !! code = Some display).
Proof.
  split.
  - intros code display Hfmt.
    pose proof (formats_to_mapping code display Hfmt) as Hmap. cbv beta in Hmap.
    split; [exact Hmap|]. unfold resolve_voice. rewrite Hmap. reflexivity.
  - intros display code Hmap. exact (mapping_to_formats display code Hmap).
Qed.

Lemma catalogue_tables_inverse_witness :
  _get_voice_mapping !! bella = Some "af_bella" ∧ resolve_voice bella = "af_bella".
Proof.
  apply (proj1 catalogue_tables_inverse "af_bella" bella). compute_done.
Defined.

(** C4: voice resolution is a function from strings to strings, defined
    everywhere.  A known display name goes to its code, a known code stays
    as it is, and so does an identifier that neither table knows. *)
Theorem resolve_voice_total (identifier : string) :
  (∀ code : string,
     _get_voice_mapping !! identifier = Some code → resolve_voice identifier = code) ∧
  (is_Some (voice_formats !! identifier) → resolve_voice identifier = identifier) ∧
  (_get_voice_mapping !! identifier = None → voice_formats !! identifier = None →
     resolve_voice identifier = identifier).
Proof.
  unfold resolve_voice. split_and!.
  - intros code Hmap. rewrite Hmap. reflexivity.
  - intros [display Hfmt].
    pose proof (codes_are_not_display_names identifier display Hfmt) as Hnone.
    cbv beta in Hnone. rewrite Hnone. reflexivity.
  - intros Hnone _. rewrite Hnone. reflexivity.
Qed.

Lemma resolve_voice_total_witness :
  resolve_voice bella = "af_bella" ∧
  resolve_voice "af_bella" = "af_bella" ∧
  resolve_voice "xx_custom" = "xx_custom".
Proof.
  split_and!.
  - apply (proj1 (resolve_voice_total bella)). compute_done.
  - apply (proj1 (proj2 (resolve_voice_total "af_bella"))).
    exists bella. compute_done.
  - apply (proj2 (proj2 (resolve_voice_total "xx_custom"))); compute_done.
Defined.

(** The state the pipeline is in once it has been loaded. *)
Lemma load_cached env w pipeline :
  kokoro_pipeline w = Some pipeline →
  _load_kokoro_model env w = (Ret pipeline, w).
Proof.
  intros Hc. unfold _load_kokoro_model, mbind, py_bind, gets.
  rewrite Hc. reflexivity.
Qed.

(** C8: the labels built by [list_voices] follow the raw codes one for one:
    as many labels as codes, the label at each position made from the code
    at that position, which is its display name when [voice_formats] has
    one and the code followed by " (Unknown)" otherwise.  A code that occurs
    twice is therefore labelled twice.  These labels are what [list_voices]
    returns for the voices of a loaded pipeline. *)
Theorem formatted_voices_pointwise (raw_voices : list string) :
  length (formatted_voices raw_voices) = length raw_voices ∧
  (∀ (i : nat) (code : string),
     raw_voices !! i = Some code →
     formatted_voices raw_voices !! i =
       Some (match voice_formats !! code with
             | Some display => display
             | None => code ++ " (Unknown)"
             end)) ∧
  (∀ env w pipeline,
     kokoro_pipeline w = Some pipeline → voices pipeline = raw_voices →
     list_voices env w = (Ret (formatted_voices raw_voices), w)).
Proof.
  rewrite formatted_voices_fmap. split_and!.
  - apply length_fmap.
  - intros i code Hi. rewrite list_lookup_fmap, Hi.
    change (format_voice <$> Some code) with (Some (format_voice code)).
    unfold format_voice. destruct (voice_formats !! code); reflexivity.
  - intros env w pipeline Hc <-.
    unfold list_voices, try_except, mbind, py_bind.
    rewrite (load_cached env w pipeline Hc).
    rewrite formatted_voices_fmap. reflexivity.
Qed.

Lemma formatted_voices_pointwise_witness :
  formatted_voices ["af_bella"; "xx_custom"; "af_bella"] !! 1%nat
  = Some "xx_custom (Unknown)".
Proof.
  pose proof (proj1 (proj2 (formatted_voices_pointwise
                              ["af_bella"; "xx_custom"; "af_bella"]))
                1%nat "xx_custom" eq_refl) as H.
  vm_compute in H. vm_compute. exact H.
Defined.

End Catalogue.

(** * The Kokoro backend *)

Section Backend.

Import Kokoro.

(** Loading the pipeline touches neither the audio files nor the ledger. *)
Lemma load_keeps_files env w o w1 :
  _load_kokoro_model env w = (o, w1) →
  output_files w1 = output_files w ∧ results_csv w1 = results_csv w ∧
  model_modules w1 = model_modules w.
Proof.
  unfold _load_kokoro_model, try_except, new_pipeline, emit, modify, lift_outcome,
    gets, mbind, py_bind, mret, py_ret, raise.
  destruct (kokoro_pipeline w) as [p|].
  - intros [= <- <-]. done.
  - destruct (env_kpipeline env) as [vs|e].
    + intros [= <- <-]. done.
    + destruct (exn_cls e); intros [= <- <-]; done.
Qed.

(** What [generate_audio] does once the pipeline is there and has the voice. *)
Lemma generate_audio_unfold env w pipeline w1 text voice output_path :
  _load_kokoro_model env w = (Ret pipeline, w1) →
  effective_voice voice ∈ voices pipeline →
  generate_audio env text voice output_path w =
    let w2 := add_event (EvSynthesize text (effective_voice voice)) w1 in
    match env_synthesize env text (effective_voice voice) with
    | Ret [] =>
        (Raise (Exn RuntimeError
                  "Kokoro generation failed: No audio generated from Kokoro pipeline"), w2)
    | Ret (segment :: segments) =>
        match env_sf_write_error env output_path with
        | None =>
            (Ret output_path,
             set_output_files
               (<[output_path := {| wav_data := concat (segment :: segments);
                                    wav_rate := 24000 |}]> (output_files w2)) w2)
        | Some e =>
            (Raise (Exn RuntimeError ("Kokoro generation failed: " ++ exn_msg e)),
             after_failed_write env output_path w2)
        end
    | Raise e => (Raise (Exn RuntimeError ("Kokoro generation failed: " ++ exn_msg e)), w2)
    end.
Proof.
  intros Hload Hin. unfold effective_voice in *.
  unfold generate_audio, try_except, mbind, py_bind. rewrite Hload.
  destruct (decide (resolve_voice (default "af_alloy" voice) ∈ voices pipeline))
    as [_|Hn]; [|contradiction].
  unfold run_pipeline, emit, modify, lift_outcome, sf_write, raise, mbind, py_bind,
    mret, py_ret.
  cbv zeta.
  destruct (env_synthesize env text (resolve_voice (default "af_alloy" voice)))
    as [[|segment segments]|e]; try reflexivity.
  unfold after_failed_write.
  destruct (env_sf_write_error env output_path); [|reflexivity].
  destruct (env_sf_write_residue env output_path); reflexivity.
Qed.

Lemma failed_write_csv env path w :
  results_csv (after_failed_write env path w) = results_csv w.
Proof. unfold after_failed_write. destruct (env_sf_write_residue env path); reflexivity. Qed.

Lemma failed_write_modules env path w :
  model_modules (after_failed_write env path w) = model_modules w.
Proof. unfold after_failed_write. destruct (env_sf_write_residue env path); reflexivity. Qed.

Lemma failed_write_events env path w :
  events (after_failed_write env path w) = events w.
Proof. unfold after_failed_write. destruct (env_sf_write_residue env path); reflexivity. Qed.

Lemma failed_write_pipeline env path w :
  kokoro_pipeline (after_failed_write env path w) = kokoro_pipeline w.
Proof. unfold after_failed_write. destruct (env_sf_write_residue env path); reflexivity. Qed.

Lemma failed_write_other_files env path w other :
  other ≠ path →
  output_files (after_failed_write env path w) !! other = output_files w !! other.
Proof.
  intros Hne. unfold after_failed_write.
  destruct (env_sf_write_residue env path); [|reflexivity].
  cbn [set_output_files output_files]. apply lookup_insert_ne. congruence.
Qed.

(** C6: when the pipeline yields the segments s1, ..., sn (n at least 1)
    and [sf.write] does not fail, [generate_audio] returns the output path
    and the waveform handed to [sf.write] for that path is s1 ++ ... ++ sn,
    in the order of generation and with nothing between the segments, at
    24000 Hz. *)
Theorem written_waveform_is_concatenation env w pipeline w1 text voice output_path
    segment segments :
  _load_kokoro_model env w = (Ret pipeline, w1) →
  effective_voice voice ∈ voices pipeline →
  env_synthesize env text (effective_voice voice) = Ret (segment :: segments) →
  env_sf_write_error env output_path = None →
  ∃ w', generate_audio env text voice output_path w = (Ret output_path, w') ∧
        output_files w' !! output_path =
          Some {| wav_data := (segment ++ concat segments)%list; wav_rate := 24000 |}.
Proof.
  intros Hload Hin Hsyn Hwrite.
  rewrite (generate_audio_unfold env w pipeline w1 text voice output_path Hload Hin).
  cbv zeta. rewrite Hsyn, Hwrite.
  eexists. split; [reflexivity|].
  unfold set_output_files. cbn [output_files].
  apply lookup_insert_eq.
Qed.

Lemma written_waveform_is_concatenation_witness :
  ∃ w', generate_audio env_ok "Hello world" (Some bella) "out.wav" init_world
        = (Ret "out.wav", w') ∧
        output_files w' !! "out.wav"
        = Some {| wav_data := [1; 2; 3; 4; 5]%Z; wav_rate := 24000 |}.
Proof.
  refine (written_waveform_is_concatenation env_ok init_world
            {| voices := ["af_bella"; "am_adam"] |}
            (snd (_load_kokoro_model env_ok init_world))
            "Hello world" (Some bella) "out.wav" [1; 2]%Z [[3]; [4; 5]]%Z _ _ _ _).
  - vm_compute. reflexivity.
  - compute_done.
  - vm_compute. reflexivity.
  - reflexivity.
Defined.

(** C10: when the pipeline yields no segment at all, [generate_audio]
    raises "Kokoro generation failed: No audio generated from Kokoro
    pipeline" and the audio files are what they were before the call. *)
Theorem no_segment_no_file env w pipeline w1 text voice output_path :
  _load_kokoro_model env w = (Ret pipeline, w1) →
  effective_voice voice ∈ voices pipeline →
  env_synthesize env text (effective_voice voice) = Ret [] →
  ∃ w', generate_audio env text voice output_path w =
          (Raise (Exn RuntimeError
                    "Kokoro generation failed: No audio generated from Kokoro pipeline"),
           w') ∧
        output_files w' = output_files w.
Proof.
  intros Hload Hin Hsyn.
  rewrite (generate_audio_unfold env w pipeline w1 text voice output_path Hload Hin).
  cbv zeta. rewrite Hsyn.
  eexists. split; [reflexivity|].
  cbn [add_event output_files].
  exact (proj1 (load_keeps_files env w _ w1 Hload)).
Qed.

Lemma no_segment_no_file_witness :
  ∃ w', generate_audio env_silent "Hello world" (Some bella) "out.wav" init_world =
          (Raise (Exn RuntimeError
                    "Kokoro generation failed: No audio generated from Kokoro pipeline"),
           w') ∧
        output_files w' = output_files init_world.
Proof.
  refine (no_segment_no_file env_silent init_world
            {| voices := ["af_bella"; "am_adam"] |}
            (snd (_load_kokoro_model env_silent init_world))
            "Hello world" (Some bella) "out.wav" _ _ _).
  - vm_compute. reflexivity.
  - compute_done.
  - reflexivity.
Defined.

End Backend.

(** * The backend registry *)

Section Registry.

Import App.

(** There is one module object, so any two are the same. *)
Ltac one_module :=
  repeat match goal with m : py_module |- _ => destruct m end.

Lemma get_model_module_cached env model_name w m :
  model_modules w !! model_name = Some m →
  get_model_module env model_name w = (Ret m, w).
Proof.
  intros Hc. unfold get_model_module, gets, mbind, py_bind, mret, py_ret.
  destruct (decide (model_modules w !! model_name = None)) as [Hn|_].
  - rewrite Hc in Hn. discriminate.
  - rewrite Hc. reflexivity.
Qed.

Lemma get_model_module_unknown env model_name w :
  model_modules w !! model_name = None →
  MODELS !! model_name = None →
  get_model_module env model_name w =
    (Raise (Exn ValueError ("Unknown model: " ++ model_name)), w).
Proof.
  intros Hc Hm. unfold get_model_module, gets, raise, mbind, py_bind.
  destruct (decide (model_modules w !! model_name = None)) as [_|Hn]; [|contradiction].
  rewrite Hm. reflexivity.
Qed.

Lemma get_model_module_fresh env model_name w info :
  model_modules w !! model_name = None →
  MODELS !! model_name = Some info →
  get_model_module env model_name w =
    let w1 := add_event (EvImportModule (info_module info)) w in
    match env_import_error env (info_module info) with
    | Some e => (Raise (import_failure model_name e), w1)
    | None =>
        match importable (info_module info) with
        | Some m => (Ret m, set_model_modules (<[model_name := m]> (model_modules w1)) w1)
        | None =>
            (Raise (Exn RuntimeError
                      ("Failed to load model " ++ model_name ++ ": "
                       ++ "No module named '" ++ info_module info ++ "'")), w1)
        end
    end.
Proof.
  intros Hc Hm.
  unfold get_model_module, import_module, try_except, emit, modify, gets, raise,
    mbind, py_bind, mret, py_ret.
  destruct (decide (model_modules w !! model_name = None)) as [_|Hn]; [|contradiction].
  rewrite Hm. cbv zeta.
  destruct (env_import_error env (info_module info)) as [e|].
  - unfold import_failure. destruct (exn_cls e); reflexivity.
  - destruct (importable (info_module info)) as [m|]; [|reflexivity].
    cbn [set_model_modules model_modules add_event].
    rewrite lookup_insert_eq. reflexivity.
Qed.

Lemma get_model_module_caches env model_name w m w' :
  get_model_module env model_name w = (Ret m, w') →
  model_modules w' !! model_name = Some m.
Proof.
  destruct (model_modules w !! model_name) as [m0|] eqn:Hc.
  - rewrite (get_model_module_cached env model_name w m0 Hc).
    intros Heq; inversion Heq; subst; clear Heq; one_module. exact Hc.
  - destruct (MODELS !! model_name) as [info|] eqn:Hm.
    + rewrite (get_model_module_fresh env model_name w info Hc Hm). cbv zeta.
      destruct (env_import_error env (info_module info)); [discriminate|].
      destruct (importable (info_module info)); [|discriminate].
      intros Heq; inversion Heq; subst; clear Heq; one_module. cbn [set_model_modules model_modules].
      apply lookup_insert_eq.
    + rewrite (get_model_module_unknown env model_name w Hc Hm). discriminate.
Qed.

Lemma cache_ok_init : cache_ok init_world.
Proof. intros model_name _. apply lookup_empty. Qed.

(** [get_model_module] keeps the cache within the registry, and leaves the
    pipeline, the audio files and the ledger alone. *)
Lemma get_model_module_keeps env model_name w o w' :
  get_model_module env model_name w = (o, w') →
  (cache_ok w → cache_ok w') ∧
  kokoro_pipeline w' = kokoro_pipeline w ∧ output_files w' = output_files w ∧
  results_csv w' = results_csv w ∧
  synth_calls (events w') = synth_calls (events w).
Proof.
  assert (Hev : ∀ name, synth_calls (events (add_event (EvImportModule name) w))
                        = synth_calls (events w)).
  { intros name. cbn [add_event events].
    induction (events w) as [|ev evs IH]; [reflexivity|].
    destruct ev; cbn [app synth_calls]; rewrite ?IH; reflexivity. }
  destruct (model_modules w !! model_name) as [m0|] eqn:Hc.
  - rewrite (get_model_module_cached env model_name w m0 Hc).
    intros Heq; inversion Heq; subst; clear Heq. done.
  - destruct (MODELS !! model_name) as [info|] eqn:Hm.
    + rewrite (get_model_module_fresh env model_name w info Hc Hm). cbv zeta.
      destruct (env_import_error env (info_module info));
        [|destruct (importable (info_module info))];
        intros Heq; inversion Heq; subst; clear Heq;
        (split_and!; [|reflexivity|reflexivity|reflexivity|apply Hev]).
      * done.
      * intros Hok name Hname. cbn [set_model_modules model_modules add_event].
        rewrite lookup_insert_ne; [by apply Hok|].
        intros ->. rewrite Hm in Hname. discriminate.
      * done.
    + rewrite (get_model_module_unknown env model_name w Hc Hm).
      intros Heq; inversion Heq; subst; clear Heq. done.
Qed.

(** C7, amended: on a cache that holds registered models only,
    [get_model_module] raises [ValueError] "Unknown model: ..." for a name
    outside [MODELS] and leaves the world as it was; when the import of a
    registered, not yet cached model raises [ImportError] it raises
    [RuntimeError] "Failed to load model ...: ..." carrying the cause's
    message, while any other exception of the import leaves the function
    as it is; and after a successful call a further call for the same name
    returns the same module without importing again or changing anything. *)
Theorem registry_get env model_name w :
  cache_ok w →
  (MODELS !! model_name = None →
     get_model_module env model_name w =
       (Raise (Exn ValueError ("Unknown model: " ++ model_name)), w)) ∧
  (∀ info e,
     model_modules w !! model_name = None →
     MODELS !! model_name = Some info →
     env_import_error env (info_module info) = Some e →
     (exn_cls e = ImportError →
        fst (get_model_module env model_name w) =
          Raise (Exn RuntimeError
                   ("Failed to load model " ++ model_name ++ ": " ++ exn_msg e))) ∧
     (exn_cls e ≠ ImportError →
        fst (get_model_module env model_name w) = Raise e) ∧
     model_modules (snd (get_model_module env model_name w)) = model_modules w) ∧
  (∀ m w',
     get_model_module env model_name w = (Ret m, w') →
     ∀ env', get_model_module env' model_name w' = (Ret m, w')).
Proof.
  intros Hok. split_and!.
  - intros Hm. apply get_model_module_unknown; [by apply Hok|exact Hm].
  - intros info e Hc Hm He.
    rewrite (get_model_module_fresh env model_name w info Hc Hm). cbv zeta.
    rewrite He. cbn [fst snd]. unfold import_failure. split_and!.
    + intros ->. reflexivity.
    + intros Hne. destruct (exn_cls e); try reflexivity. contradiction.
    + reflexivity.
  - intros m w' Hget env'.
    apply get_model_module_cached.
    exact (get_model_module_caches env model_name w m w' Hget).
Qed.

Lemma registry_get_witness :
  fst (get_model_module env_no_torch "kokoro" init_world) =
    Raise (Exn RuntimeError "Failed to load model kokoro: No module named 'torch'") ∧
  get_model_module env_no_kokoro "kokoro"
    (snd (get_model_module env_ok "kokoro" init_world))
  = (Ret ModelsKokoro, snd (get_model_module env_ok "kokoro" init_world)).
Proof.
  split.
  - refine (proj1 (proj1 (proj2 (registry_get env_no_torch "kokoro" init_world _))
                     {| info_name := "Kokoro";
                        info_description := "Fast lightweight TTS for local mac";
                        info_module := "models.kokoro" |}
                     (Exn ImportError "No module named 'torch'") _ _ _) _).
    + intros name _. reflexivity.
    + reflexivity.
    + vm_compute. reflexivity.
    + reflexivity.
    + reflexivity.
  - refine (proj2 (proj2 (registry_get env_ok "kokoro" init_world _))
              ModelsKokoro (snd (get_model_module env_ok "kokoro" init_world)) _
              env_no_kokoro).
    + intros name _. reflexivity.
    + vm_compute. reflexivity.
Defined.

(** C7 as stated fails: here the import of models.kokoro raises [OSError],
    and [get_model_module] passes that very exception on, unwrapped. *)
Lemma import_oserror_not_wrapped :
  env_import_error env_no_sndfile "models.kokoro"
    = Some (Exn OSError "sndfile library not found") ∧
  fst (get_model_module env_no_sndfile "kokoro" init_world)
    = Raise (Exn OSError "sndfile library not found").
Proof. split; vm_compute; reflexivity. Qed.

End Registry.

(** * The voices endpoint *)

Section Voices.

Import App.

Lemma list_voices_outcome env w :
  Kokoro.list_voices env w =
    match Kokoro._load_kokoro_model env w with
    | (Ret pipeline, w1) => (Ret (Kokoro.formatted_voices (voices pipeline)), w1)
    | (Raise _, w1) => (Ret Kokoro.fallback_voices, w1)
    end.
Proof.
  unfold Kokoro.list_voices, try_except, mbind, py_bind, mret, py_ret.
  destruct (Kokoro._load_kokoro_model env w) as [[pipeline|e] w1]; reflexivity.
Qed.

(** C3, amended: on a cache that holds registered models only, the voices
    endpoint answers 500 with an error payload when the model is unknown
    and whenever [get_model_module] raises (the import of the backend
    module failed); once it has the module it answers 200 with a voice
    list: the display names of the pipeline's voices when the pipeline
    loads, and the four fallback display names when loading it fails. *)
Theorem get_voices_outcomes env model_name w :
  cache_ok w →
  (MODELS !! model_name = None →
     get_voices env model_name w =
       ({| status := 500; payload := ErrorBody ("Unknown model: " ++ model_name) |}, w)) ∧
  (∀ e w1,
     get_model_module env model_name w = (Raise e, w1) →
     get_voices env model_name w =
       ({| status := 500; payload := ErrorBody (exn_msg e) |}, w1)) ∧
  (∀ m w1,
     get_model_module env model_name w = (Ret m, w1) →
     (∀ pipeline w2,
        Kokoro._load_kokoro_model env w1 = (Ret pipeline, w2) →
        get_voices env model_name w =
          ({| status := 200;
              payload := VoicesBody (Kokoro.formatted_voices (voices pipeline)) |}, w2)) ∧
     (∀ e w2,
        Kokoro._load_kokoro_model env w1 = (Raise e, w2) →
        get_voices env model_name w =
          ({| status := 200; payload := VoicesBody Kokoro.fallback_voices |}, w2))).
Proof.
  intros Hok. split_and!.
  - intros Hm. unfold get_voices, endpoint, mbind, py_bind.
    rewrite (get_model_module_unknown env model_name w (Hok _ Hm) Hm). reflexivity.
  - intros e w1 Hget. unfold get_voices, endpoint, mbind, py_bind.
    rewrite Hget. reflexivity.
  - intros m w1 Hget. destruct m.
    split; intros ? w2 Hload; unfold get_voices, endpoint, mbind, py_bind;
      rewrite Hget; cbn [module_list_voices];
      rewrite list_voices_outcome, Hload; reflexivity.
Qed.

Lemma get_voices_outcomes_witness :
  get_voices env_ok "koko" init_world =
    ({| status := 500; payload := ErrorBody "Unknown model: koko" |}, init_world).
Proof.
  refine (proj1 (get_voices_outcomes env_ok "koko" init_world _) _).
  - intros name _. reflexivity.
  - vm_compute. reflexivity.
Defined.

(** C3 as stated fails: with the kokoro package missing the pipeline cannot
    be loaded, yet the endpoint answers 200 with the fallback list. *)
Lemma load_failure_lists_fallback :
  fst (Kokoro._load_kokoro_model env_no_kokoro
         (snd (get_model_module env_no_kokoro "kokoro" init_world)))
    = Raise (Exn ImportError "Kokoro not installed. Run setup-neo-tts.sh first") ∧
  fst (get_voices env_no_kokoro "kokoro" init_world)
    = {| status := 200;
         payload := VoicesBody ["🇺🇸 Alloy 🚺 (C)"; "🇺🇸 Adam 🚹 (F+)";
                                "🇬🇧 Emma 🚺 (B-)"; "🇬🇧 Daniel 🚹 (D)"] |}.
Proof. split; vm_compute; reflexivity. Qed.

End Voices.

(** * The generation endpoint *)

Section Generation.

Import App.

(** Only "kokoro" is registered. *)
Lemma registered_model model_name info :
  MODELS !! model_name = Some info → model_name = "kokoro".
Proof.
  unfold MODELS. intros H. apply lookup_singleton_Some in H. symmetry. apply H.
Qed.

(** C5: a request whose text is a string that is empty once stripped, that
    is, by [strip_empty_iff], empty or made of whitespace only (a missing
    text counts as empty), is answered 400 with an error payload, and the
    world after the call is the world before it: no module imported, no
    pipeline loaded or called, no file and no ledger line written. *)
Theorem blank_text_rejected env data w text :
  get_text (req_text data) = Some text →
  PyStr.strip text = "" →
  ∃ error, generate_audio env data w =
             ({| status := 400; payload := ErrorBody error |}, w).
Proof.
  intros Htext Hblank.
  unfold generate_audio, endpoint, stripped_text, mbind, py_bind, mret, py_ret.
  rewrite Htext, Hblank.
  destruct (req_model data) as [model_name|]; [|eexists; reflexivity].
  destruct (PyStr.falsy model_name || bool_decide (MODELS !! model_name = None));
    eexists; reflexivity.
Qed.

Lemma blank_text_rejected_witness :
  ∃ error,
    generate_audio env_ok
      {| req_model := Some "kokoro"; req_voice := None; req_text := TextStr "   " |}
      init_world
    = ({| status := 400; payload := ErrorBody error |}, init_world).
Proof.
  refine (blank_text_rejected env_ok
            {| req_model := Some "kokoro"; req_voice := None; req_text := TextStr "   " |}
            init_world "   " _ _).
  - reflexivity.
  - vm_compute. reflexivity.
Defined.

Lemma synth_calls_app (a b : list event) :
  synth_calls (a ++ b) = (synth_calls a ++ synth_calls b)%list.
Proof.
  induction a as [|ev a IH]; [reflexivity|].
  destruct ev; cbn [app synth_calls]; rewrite IH; reflexivity.
Qed.

Lemma synth_calls_add_event ev w :
  synth_calls (events (add_event ev w))
  = (synth_calls (events w) ++ synth_calls [ev])%list.
Proof. cbn [add_event events]. apply synth_calls_app. Qed.

Lemma load_keeps_calls env w o w1 :
  Kokoro._load_kokoro_model env w = (o, w1) →
  synth_calls (events w1) = synth_calls (events w).
Proof.
  unfold Kokoro._load_kokoro_model, try_except, Kokoro.new_pipeline, emit, modify,
    lift_outcome, gets, mbind, py_bind, mret, py_ret, raise.
  destruct (kokoro_pipeline w) as [p|].
  - intros Heq; inversion Heq; subst. reflexivity.
  - destruct (env_kpipeline env) as [vs|e]; [|destruct (exn_cls e)];
      intros Heq; inversion Heq; subst;
      cbn [set_kokoro_pipeline events];
      rewrite synth_calls_add_event; apply app_nil_r.
Qed.

(** The pipeline calls and ledger effect of the backend's [generate_audio]:
    it returns only after calling the pipeline once, with the effective
    voice, and never calls it otherwise than so. *)
Lemma backend_generate_calls env text voice path w o w' :
  Kokoro.generate_audio env text voice path w = (o, w') →
  results_csv w' = results_csv w ∧
  model_modules w' = model_modules w ∧
  match o with
  | Ret _ =>
      synth_calls (events w')
      = (synth_calls (events w) ++ [(text, effective_voice voice)])%list
  | Raise _ =>
      synth_calls (events w') = synth_calls (events w) ∨
      synth_calls (events w')
      = (synth_calls (events w) ++ [(text, effective_voice voice)])%list
  end.
Proof.
  destruct (Kokoro._load_kokoro_model env w) as [[pipeline|e] w1] eqn:Hload.
  - pose proof (load_keeps_files env w _ w1 Hload) as (_ & Hcsv & Hmods).
    pose proof (load_keeps_calls env w _ w1 Hload) as Hcalls.
    destruct (decide (effective_voice voice ∈ voices pipeline)) as [Hin|Hout].
    + rewrite (generate_audio_unfold env w pipeline w1 text voice path Hload Hin).
      cbv zeta.
      assert (Hnew : synth_calls (events (add_event (EvSynthesize text (effective_voice voice)) w1))
                     = (synth_calls (events w) ++ [(text, effective_voice voice)])%list).
      { rewrite synth_calls_add_event, Hcalls. reflexivity. }
      destruct (env_synthesize env text (effective_voice voice)) as [[|seg segs]|e];
        [| destruct (env_sf_write_error env path) |];
        intros Heq; inversion Heq; subst; clear Heq;
        rewrite ?failed_write_csv, ?failed_write_modules, ?failed_write_events;
        (split_and!; [exact Hcsv | exact Hmods | first [exact Hnew | right; exact Hnew]]).
    + unfold Kokoro.generate_audio, try_except, raise, mbind, py_bind. rewrite Hload.
      unfold effective_voice in Hout.
      destruct (decide (Kokoro.resolve_voice (default "af_alloy" voice) ∈ voices pipeline))
        as [Hin|_]; [contradiction|].
      intros Heq; inversion Heq; subst; clear Heq.
      split_and!; [exact Hcsv | exact Hmods | left; exact Hcalls].
  - pose proof (load_keeps_files env w _ w1 Hload) as (_ & Hcsv & Hmods).
    pose proof (load_keeps_calls env w _ w1 Hload) as Hcalls.
    unfold Kokoro.generate_audio, try_except, raise, mbind, py_bind. rewrite Hload.
    intros Heq; inversion Heq; subst; clear Heq.
    split_and!; [exact Hcsv | exact Hmods | left; exact Hcalls].
Qed.

Lemma log_generation_outcome env model speaker text path w :
  log_generation env model speaker text path w =
    match env_ledger_error env with
    | Some e =>
        (Raise e, after_failed_append env (ledger_row env model speaker text path w) w)
    | None =>
        (Ret tt,
         set_results_csv
           (Some (ledger_after (ledger_row env model speaker text path w) w)) w)
    end.
Proof.
  unfold log_generation, append_rows, probe_duration, gets, modify, raise,
    mbind, py_bind, mret, py_ret, ledger_after, ledger_row, after_failed_append.
  destruct (env_ledger_error env).
  - destruct (env_ledger_progress env) as [[n torn]|]; reflexivity.
  - destruct (results_csv w) as [lines|]; reflexivity.
Qed.

Lemma failed_append_fields env r w :
  model_modules (after_failed_append env r w) = model_modules w ∧
  kokoro_pipeline (after_failed_append env r w) = kokoro_pipeline w ∧
  output_files (after_failed_append env r w) = output_files w ∧
  events (after_failed_append env r w) = events w.
Proof.
  unfold after_failed_append.
  destruct (env_ledger_progress env) as [[n torn]|]; split_and!; reflexivity.
Qed.

(** A failed append only adds to the ledger, and adds nothing when the
    file could not be opened. *)
Lemma failed_append_ledger env r w :
  default [] (results_csv w) `prefix_of`
    default [] (results_csv (after_failed_append env r w)) ∧
  (env_ledger_progress env = None →
   results_csv (after_failed_append env r w) = results_csv w).
Proof.
  unfold after_failed_append.
  destruct (env_ledger_progress env) as [[n torn]|].
  - split; [|discriminate]. cbn [set_results_csv results_csv default from_option id].
    by apply prefix_app_r.
  - split; [reflexivity|reflexivity].
Qed.

Lemma falsy_empty (s : string) : PyStr.falsy s = true ↔ s = "".
Proof. destruct s; cbn; split; congruence. Qed.

(** The course of a request that passes validation. *)
Lemma generate_audio_run env data w raw model_name info :
  req_model data = Some model_name →
  MODELS !! model_name = Some info →
  get_text (req_text data) = Some raw →
  PyStr.strip raw ≠ "" →
  generate_audio env data w =
    let text := PyStr.strip raw in
    let voice := req_voice data in
    match get_model_module env model_name w with
    | (Raise e, w1) => ({| status := 500; payload := ErrorBody (exn_msg e) |}, w1)
    | (Ret m, w1) =>
        match module_generate_audio m env text voice (output_path_for env model_name) w1 with
        | (Raise e, w2) =>
            ({| status := 500; payload := ErrorBody (exn_msg e) |},
             add_event (EvLoggerError ".2f") w2)
        | (Ret result_path, w2) =>
            match log_generation env model_name voice text result_path w2 with
            | (Raise e, w3) =>
                ({| status := 500; payload := ErrorBody (exn_msg e) |},
                 add_event (EvLoggerError ".2f") w3)
            | (Ret _, w3) =>
                ({| status := 200;
                    payload := GenerateBody
                                 ("/static/output/" ++ output_filename env model_name)
                                 model_name voice (duration_of env result_path w2) |},
                 w3)
            end
        end
    end.
Proof.
  intros Hmodel Hreg Htext Hnonblank.
  pose proof (registered_model model_name info Hreg) as ->.
  unfold generate_audio, endpoint, stripped_text, try_except, probe_duration, gets,
    emit, modify, raise, mbind, py_bind, mret, py_ret.
  rewrite Htext, Hmodel.
  replace (PyStr.falsy "kokoro" || bool_decide (MODELS !! "kokoro" = None))
    with false by (vm_compute; reflexivity).
  destruct (PyStr.falsy (PyStr.strip raw)) eqn:Hf.
  { apply falsy_empty in Hf. contradiction. }
  cbv zeta. unfold output_path_for, output_filename.
  destruct (get_model_module env "kokoro" w) as [[m|e] w1]; [|reflexivity].
  destruct (module_generate_audio m env (PyStr.strip raw) (req_voice data) _ w1)
    as [[result_path|e] w2]; [|reflexivity].
  destruct (log_generation env "kokoro" (req_voice data) (PyStr.strip raw) result_path w2)
    as [[[]|e] w3]; reflexivity.
Qed.

(** C1, amended: for a request that passes validation and whose backend
    synthesis succeeds, a failure of [log_generation] to append to the
    ledger fails the request: the answer is 500 with the message of the
    ledger's exception, [app.logger.error] is called once, and the audio
    files are as synthesis left them, the new one included.  The ledger
    keeps the lines it had; it is untouched when results.csv could not be
    opened, and otherwise exists and holds after them whatever of the
    header and the row had reached it. *)
Theorem ledger_failure_fails_request env data w raw model_name info m w1
    result_path w2 e :
  req_model data = Some model_name →
  MODELS !! model_name = Some info →
  get_text (req_text data) = Some raw →
  PyStr.strip raw ≠ "" →
  get_model_module env model_name w = (Ret m, w1) →
  module_generate_audio m env (PyStr.strip raw) (req_voice data)
    (output_path_for env model_name) w1 = (Ret result_path, w2) →
  env_ledger_error env = Some e →
  generate_audio env data w =
    ({| status := 500; payload := ErrorBody (exn_msg e) |},
     add_event (EvLoggerError ".2f")
       (after_failed_append env
          (ledger_row env model_name (req_voice data) (PyStr.strip raw) result_path w2)
          w2)) ∧
  events (snd (generate_audio env data w)) = (events w2 ++ [EvLoggerError ".2f"])%list ∧
  output_files (snd (generate_audio env data w)) = output_files w2 ∧
  default [] (results_csv w2)
    `prefix_of` default [] (results_csv (snd (generate_audio env data w))) ∧
  (env_ledger_progress env = None →
   results_csv (snd (generate_audio env data w)) = results_csv w2).
Proof.
  intros Hmodel Hreg Htext Hnonblank Hget Hgen Hledger.
  rewrite (generate_audio_run env data w raw model_name info Hmodel Hreg Htext Hnonblank).
  cbv zeta. rewrite Hget, Hgen, log_generation_outcome, Hledger. cbn [snd].
  set (r := ledger_row env model_name (req_voice data) (PyStr.strip raw) result_path w2).
  destruct (failed_append_fields env r w2) as (_ & _ & Hfiles & Hevents).
  destruct (failed_append_ledger env r w2) as (Hprefix & Hclosed).
  split_and!.
  - reflexivity.
  - cbn [add_event events]. rewrite Hevents. reflexivity.
  - cbn [add_event output_files]. exact Hfiles.
  - cbn [add_event results_csv]. exact Hprefix.
  - cbn [add_event results_csv]. exact Hclosed.
Qed.

Lemma ledger_failure_fails_request_witness :
  generate_audio env_row_rejected bella_request init_world =
    ({| status := 500;
        payload := ErrorBody "'ascii' codec can't encode characters" |},
     add_event (EvLoggerError ".2f")
       (after_failed_append env_row_rejected
          (ledger_row env_row_rejected "kokoro" (req_voice bella_request)
             (PyStr.strip "Hello world")
             "/srv/neo-tts/app/static/output/kokoro_1700000000.wav"
             (snd (Kokoro.generate_audio env_row_rejected "Hello world" (Some bella)
                     "/srv/neo-tts/app/static/output/kokoro_1700000000.wav"
                     (snd (get_model_module env_row_rejected "kokoro" init_world)))))
          (snd (Kokoro.generate_audio env_row_rejected "Hello world" (Some bella)
                  "/srv/neo-tts/app/static/output/kokoro_1700000000.wav"
                  (snd (get_model_module env_row_rejected "kokoro" init_world)))))).
Proof.
  refine (proj1 (ledger_failure_fails_request env_row_rejected bella_request init_world
            "Hello world" "kokoro"
            {| info_name := "Kokoro";
               info_description := "Fast lightweight TTS for local mac";
               info_module := "models.kokoro" |}
            ModelsKokoro
            (snd (get_model_module env_row_rejected "kokoro" init_world))
            "/srv/neo-tts/app/static/output/kokoro_1700000000.wav"
            _
            (Exn OtherError "'ascii' codec can't encode characters")
            _ _ _ _ _ _ _)).
  - reflexivity.
  - reflexivity.
  - reflexivity.
  - vm_compute. discriminate.
  - vm_compute. reflexivity.
  - vm_compute. reflexivity.
  - reflexivity.
Defined.

(** What a failed append leaves of the ledger: nothing when the file
    cannot be opened, the header alone when the row is rejected after it,
    an empty file when nothing could be written. *)
Example failed_append_residues :
  results_csv (snd (generate_audio env_ledger_down bella_request init_world)) = None ∧
  results_csv (snd (generate_audio env_row_rejected bella_request init_world))
    = Some [Header ledger_header] ∧
  results_csv (snd (generate_audio env_disk_full bella_request init_world)) = Some [].
Proof. split_and!; vm_compute; reflexivity. Qed.

(** C1 as stated fails: the request below is answered 200 when the ledger
    can be written; when it cannot, the audio file is written all the same
    and the answer is 500. *)
Lemma ledger_failure_is_fatal :
  status (fst (generate_audio env_ok bella_request init_world)) = 200%nat ∧
  output_files (snd (generate_audio env_ledger_down bella_request init_world))
    !! "/srv/neo-tts/app/static/output/kokoro_1700000000.wav"
  = Some {| wav_data := [1; 2; 3; 4; 5]%Z; wav_rate := 24000 |} ∧
  fst (generate_audio env_ledger_down bella_request init_world) =
    {| status := 500;
       payload := ErrorBody
         "[Errno 13] Permission denied: '/srv/neo-tts/app/logs/results.csv'" |}.
Proof. split_and!; vm_compute; reflexivity. Qed.

(** C2, amended: for the request with model "kokoro", voice
    "🇺🇸 Bella 🚺🔥 (A-)" and text "Hello world", the pipeline is called at
    most once and only with the text and the code "af_bella"; and when the
    answer is 200 it was called so, and the last line of the ledger is a
    row for model "kokoro" and text "Hello world" whose speaker is the
    voice as the caller wrote it, "🇺🇸 Bella 🚺🔥 (A-)". *)
Theorem bella_request_code_and_speaker env w :
  let response := fst (generate_audio env bella_request w) in
  let w' := snd (generate_audio env bella_request w) in
  (synth_calls (events w') = synth_calls (events w) ∨
   synth_calls (events w')
   = (synth_calls (events w) ++ [("Hello world", "af_bella")])%list) ∧
  (status response = 200%nat →
     synth_calls (events w')
     = (synth_calls (events w) ++ [("Hello world", "af_bella")])%list ∧
     ∃ lines r,
       results_csv w' = Some (lines ++ [Row r])%list ∧
       row_model r = "kokoro" ∧
       row_speaker r = "🇺🇸 Bella 🚺🔥 (A-)" ∧
       row_text r = "Hello world").
Proof.
  assert (Hstrip : PyStr.strip "Hello world" = "Hello world") by (vm_compute; reflexivity).
  assert (Hvoice : effective_voice (Some bella) = "af_bella") by (vm_compute; reflexivity).
  assert (Hreg : MODELS !! "kokoro" =
                 Some {| info_name := "Kokoro";
                         info_description := "Fast lightweight TTS for local mac";
                         info_module := "models.kokoro" |}) by reflexivity.
  cbv zeta.
  rewrite (generate_audio_run env bella_request w "Hello world" "kokoro" _
             eq_refl Hreg eq_refl ltac:(rewrite Hstrip; discriminate)).
  cbv zeta. rewrite Hstrip.
  change (req_voice bella_request) with (Some bella).
  destruct (get_model_module env "kokoro" w) as [[m|e] w1] eqn:Hget;
    pose proof (get_model_module_keeps env "kokoro" w _ w1 Hget)
      as (_ & _ & _ & _ & Hcalls1).
  2:{ cbn [fst snd status]. split; [left; exact Hcalls1|discriminate]. }
  destruct m. cbn [module_generate_audio].
  destruct (Kokoro.generate_audio env "Hello world" (Some bella)
              (output_path_for env "kokoro") w1) as [[result_path|e] w2] eqn:Hgen;
    pose proof (backend_generate_calls env _ _ _ w1 _ w2 Hgen) as (_ & _ & Hcalls2);
    rewrite Hvoice, Hcalls1 in Hcalls2.
  2:{ cbn [fst snd status]. rewrite synth_calls_add_event, app_nil_r.
      split; [exact Hcalls2|discriminate]. }
  rewrite log_generation_outcome.
  destruct (env_ledger_error env) as [e|]; cbn [fst snd status].
  { rewrite synth_calls_add_event, app_nil_r.
    rewrite (proj2 (proj2 (proj2 (failed_append_fields env _ w2)))).
    split; [right; exact Hcalls2|discriminate]. }
  cbn [set_results_csv events results_csv].
  split; [right; exact Hcalls2|]. intros _. split; [exact Hcalls2|].
  unfold ledger_after.
  destruct (results_csv w2) as [lines|].
  - exists lines. eexists. split; [reflexivity|].
    cbn [ledger_row row_model row_speaker row_text].
    split_and!; vm_compute; reflexivity.
  - exists [Header ledger_header]. eexists. split; [reflexivity|].
    cbn [ledger_row row_model row_speaker row_text].
    split_and!; vm_compute; reflexivity.
Qed.

Lemma bella_request_code_and_speaker_witness :
  synth_calls (events (snd (generate_audio env_ok bella_request init_world)))
  = [("Hello world", "af_bella")] ∧
  ∃ lines r,
    results_csv (snd (generate_audio env_ok bella_request init_world))
    = Some (lines ++ [Row r])%list ∧
    row_model r = "kokoro" ∧
    row_speaker r = "🇺🇸 Bella 🚺🔥 (A-)" ∧
    row_text r = "Hello world".
Proof.
  refine (proj2 (bella_request_code_and_speaker env_ok init_world) _).
  vm_compute. reflexivity.
Defined.

(** C2 as stated fails on its last part: the ledger row of the request
    carries the display name the caller sent, which is not "af_bella". *)
Lemma ledger_speaker_is_display_name :
  results_csv (snd (generate_audio env_ok bella_request init_world)) =
    Some [Header ["timestamp"; "model"; "speaker"; "text"; "duration"; "output_path"];
          Row {| row_timestamp := "2023-11-14 22:13:20";
                 row_model := "kokoro";
                 row_speaker := "🇺🇸 Bella 🚺🔥 (A-)";
                 row_text := "Hello world";
                 row_duration := 5 # 24000;
                 row_output_path :=
                   "/srv/neo-tts/app/static/output/kokoro_1700000000.wav" |}] ∧
  "🇺🇸 Bella 🚺🔥 (A-)" ≠ "af_bella".
Proof. split; [vm_compute; reflexivity|discriminate]. Qed.

End Generation.

(** * Reachable worlds *)

Section Reachable.

Import App.

Lemma cache_ok_same w w' :
  model_modules w' = model_modules w → cache_ok w → cache_ok w'.
Proof. intros Heq Hok name Hname. rewrite Heq. by apply Hok. Qed.

(** Both endpoints keep the module cache within the registry, so every
    world reached from [init_world] satisfies [cache_ok]. *)
Lemma get_voices_keeps_cache env model_name w :
  cache_ok w → cache_ok (snd (get_voices env model_name w)).
Proof.
  intros Hok. unfold get_voices, endpoint, mbind, py_bind, mret, py_ret.
  destruct (get_model_module env model_name w) as [[m|e] w1] eqn:Hget;
    pose proof (get_model_module_keeps env model_name w _ w1 Hget) as (Hok1 & _).
  - destruct m. cbn [module_list_voices]. rewrite list_voices_outcome.
    destruct (Kokoro._load_kokoro_model env w1) as [[p|e] w2] eqn:Hload;
      pose proof (load_keeps_files env w1 _ w2 Hload) as (_ & _ & Hmods);
      cbn [snd]; exact (cache_ok_same w1 w2 Hmods (Hok1 Hok)).
  - cbn [snd]. exact (Hok1 Hok).
Qed.

Lemma generate_audio_keeps_cache env data w :
  cache_ok w → cache_ok (snd (generate_audio env data w)).
Proof.
  intros Hok.
  destruct (get_text (req_text data)) as [raw|] eqn:Htext.
  2:{ unfold generate_audio, endpoint, stripped_text, raise, mbind, py_bind.
      rewrite Htext. exact Hok. }
  destruct (req_model data) as [model_name|] eqn:Hmodel.
  2:{ unfold generate_audio, endpoint, stripped_text, mbind, py_bind, mret, py_ret.
      rewrite Htext, Hmodel. exact Hok. }
  destruct (MODELS !! model_name) as [info|] eqn:Hreg.
  2:{ unfold generate_audio, endpoint, stripped_text, mbind, py_bind, mret, py_ret.
      rewrite Htext, Hmodel, Hreg.
      rewrite bool_decide_eq_true_2 by reflexivity. rewrite orb_true_r. exact Hok. }
  destruct (decide (PyStr.strip raw = "")) as [Hblank|Hnonblank].
  { unfold generate_audio, endpoint, stripped_text, mbind, py_bind, mret, py_ret.
    rewrite Htext, Hmodel, Hblank.
    destruct (PyStr.falsy model_name || bool_decide (MODELS !! model_name = None));
      exact Hok. }
  rewrite (generate_audio_run env data w raw model_name info Hmodel Hreg Htext Hnonblank).
  cbv zeta.
  destruct (get_model_module env model_name w) as [[m|e] w1] eqn:Hget;
    pose proof (get_model_module_keeps env model_name w _ w1 Hget) as (Hok1 & _);
    [|exact (Hok1 Hok)].
  destruct m. cbn [module_generate_audio].
  destruct (Kokoro.generate_audio env (PyStr.strip raw) (req_voice data)
              (output_path_for env model_name) w1) as [[result_path|e] w2] eqn:Hgen;
    pose proof (backend_generate_calls env _ _ _ w1 _ w2 Hgen) as (_ & Hmods & _);
    pose proof (cache_ok_same w1 w2 Hmods (Hok1 Hok)) as Hok2;
    [|exact Hok2].
  rewrite log_generation_outcome.
  destruct (env_ledger_error env); [|exact Hok2].
  cbn [snd]. refine (cache_ok_same w2 _ _ Hok2).
  cbn [add_event model_modules]. exact (proj1 (failed_append_fields env _ w2)).
Qed.

End Reachable.

(** * Python strings, checked *)

Section Strings.

Lemma join_cons (c : string) (cs : list string) :
  PyStr.join (c :: cs) = c ++ PyStr.join cs.
Proof.
  unfold PyStr.join. destruct cs as [|c' cs]; cbn [String.concat].
  - induction c as [|a c IH]; [reflexivity|].
    change (String a c = String a (c ++ "")). f_equal. exact IH.
  - reflexivity.
Qed.

(** The characters of a string, put together again, are the string. *)
Lemma join_chars (s : string) : PyStr.join (PyStr.chars s) = s.
Proof.
  induction s as [|a s IH]; [reflexivity|].
  cbn [PyStr.chars].
  destruct (PyStr.chars s) as [|c cs].
  - cbn in IH. subst s. reflexivity.
  - rewrite join_cons in IH.
    destruct (PyStr.starts_with_continuation s); rewrite !join_cons.
    + change (String a (c ++ PyStr.join cs) = String a s). f_equal. exact IH.
    + change (String a (c ++ PyStr.join cs) = String a s). f_equal. exact IH.
Qed.

Example len_counts_code_points : PyStr.len bella = 16%nat.
Proof. vm_compute. reflexivity. Qed.

Example strip_example : PyStr.strip "  Hello world " = "Hello world".
Proof. vm_compute. reflexivity. Qed.

Example excerpt_short : App.text_excerpt "Hello world" = "Hello world".
Proof. vm_compute. reflexivity. Qed.

Lemma chars_nonempty (s : string) : Forall (λ c, c ≠ "") (PyStr.chars s).
Proof.
  induction s as [|a s IH]; [constructor|].
  cbn [PyStr.chars]. destruct (PyStr.chars s) as [|c cs].
  - constructor; [discriminate|constructor].
  - inversion IH; subst.
    destruct (PyStr.starts_with_continuation s);
      repeat (constructor; try discriminate); assumption.
Qed.

Lemma join_empty (cs : list string) :
  Forall (λ c, c ≠ "") cs → PyStr.join cs = "" → cs = [].
Proof.
  destruct cs as [|c cs]; [reflexivity|].
  intros Hne. inversion Hne as [|? ? Hc _]; subst.
  rewrite join_cons. destruct c; [contradiction|discriminate].
Qed.

Lemma lstrip_chars_nil (cs : list string) :
  PyStr.lstrip_chars cs = [] → Forall (λ c, PyStr.isspace c = true) cs.
Proof.
  induction cs as [|c cs IH]; [constructor|].
  cbn [PyStr.lstrip_chars]. destruct (PyStr.isspace c) eqn:Hc; [|discriminate].
  intros H. constructor; [exact Hc|exact (IH H)].
Qed.

Lemma lstrip_chars_keeps (P : string → Prop) (cs : list string) :
  Forall P cs → Forall P (PyStr.lstrip_chars cs).
Proof.
  induction 1 as [|c cs Hc Hcs IH]; [constructor|].
  cbn [PyStr.lstrip_chars]. destruct (PyStr.isspace c); [exact IH|].
  constructor; assumption.
Qed.

(** What is left of the left strip begins with a character that stays, so
    the right strip cannot empty it. *)
Lemma rstrip_of_lstrip_nil (cs : list string) :
  PyStr.rstrip_chars (PyStr.lstrip_chars cs) = [] → PyStr.lstrip_chars cs = [].
Proof.
  unfold PyStr.rstrip_chars. intros H.
  apply (f_equal reverse) in H. rewrite reverse_involutive in H.
  change (reverse (@nil string)) with (@nil string) in H.
  apply lstrip_chars_nil in H. rewrite Forall_reverse in H.
  induction cs as [|c cs IH]; [reflexivity|].
  cbn [PyStr.lstrip_chars] in *. destruct (PyStr.isspace c) eqn:Hc; [exact (IH H)|].
  inversion H; subst. congruence.
Qed.

(** A text strips to the empty string exactly when it is made of
    whitespace only (the empty text included). *)
Lemma strip_empty_iff (s : string) :
  PyStr.strip s = "" ↔ Forall (λ c, PyStr.isspace c = true) (PyStr.chars s).
Proof.
  split.
  - unfold PyStr.strip. intros H. apply join_empty in H.
    + apply lstrip_chars_nil, rstrip_of_lstrip_nil, H.
    + unfold PyStr.rstrip_chars. rewrite Forall_reverse.
      apply lstrip_chars_keeps. rewrite Forall_reverse.
      apply lstrip_chars_keeps, chars_nonempty.
  - intros H. unfold PyStr.strip.
    assert (Hl : PyStr.lstrip_chars (PyStr.chars s) = []).
    { clear -H. induction H as [|c cs Hc _ IH]; [reflexivity|].
      cbn [PyStr.lstrip_chars]. rewrite Hc. exact IH. }
    rewrite Hl. reflexivity.
Qed.

End Strings.

(** * More on the Kokoro backend *)

Section BackendMore.

Import Kokoro.

Lemma elem_of_dict_set_key (k v : string) (keys : list string) :
  v ∈ dict_set_key k keys ↔ v ∈ keys ∨ v = k.
Proof.
  unfold dict_set_key. destruct (decide (k ∈ keys)) as [Hin|Hout].
  - split; [auto|]. intros [H| ->]; assumption.
  - rewrite elem_of_app, list_elem_of_singleton. reflexivity.
Qed.

Lemma dict_set_key_prefix (k : string) (keys : list string) :
  keys `prefix_of` dict_set_key k keys.
Proof.
  unfold dict_set_key. destruct (decide (k ∈ keys)); [reflexivity|].
  by apply prefix_app_r.
Qed.

Lemma dict_set_key_NoDup (k : string) (keys : list string) :
  NoDup keys → NoDup (dict_set_key k keys).
Proof.
  intros Hnd. unfold dict_set_key. destruct (decide (k ∈ keys)) as [|Hout]; [exact Hnd|].
  apply NoDup_app. split_and!; [exact Hnd| |apply NoDup_singleton].
  intros x Hx Hk. apply list_elem_of_singleton in Hk. subst. contradiction.
Qed.

(** X1: the loop over the cached voice files keeps the voices the pipeline
    already has, in their order, at the front; the voices afterwards are
    exactly those and the stems of the files torch.load accepted; and no
    voice is entered twice. *)
Theorem load_voice_files_spec (files : list (string * bool)) (keys : list string) :
  keys `prefix_of` load_voice_files files keys ∧
  (∀ v, v ∈ load_voice_files files keys ↔ v ∈ keys ∨ (v, true) ∈ files) ∧
  (NoDup keys → NoDup (load_voice_files files keys)).
Proof.
  revert keys. induction files as [|[voice_name ok] rest IH]; intros keys.
  - cbn [load_voice_files]. split_and!; [reflexivity| |auto].
    intros v. rewrite elem_of_nil. tauto.
  - destruct ok; cbn [load_voice_files].
    + destruct (IH (dict_set_key voice_name keys)) as (Hpre & Hin & Hnd). split_and!.
      * etrans; [apply dict_set_key_prefix|exact Hpre].
      * intros v. rewrite Hin, elem_of_dict_set_key, elem_of_cons.
        split; [intros [[H| ->]|H]|intros [H|[H|H]]]; auto.
        inversion H; subst. auto.
      * intros H. apply Hnd, dict_set_key_NoDup, H.
    + destruct (IH keys) as (Hpre & Hin & Hnd). split_and!; [exact Hpre| |exact Hnd].
      intros v. rewrite Hin, elem_of_cons.
      split; [intros [H|H]|intros [H|[H|H]]]; auto. discriminate.
Qed.

Lemma load_voice_files_spec_witness :
  NoDup (load_voice_files [("af_bella", true); ("am_adam", true); ("af_bella", true)]
           ["af_heart"; "af_bella"]).
Proof.
  apply (proj2 (proj2 (load_voice_files_spec
           [("af_bella", true); ("am_adam", true); ("af_bella", true)]
           ["af_heart"; "af_bella"]))).
  compute_done.
Defined.

Lemma load_success_cached env w pipeline w1 :
  _load_kokoro_model env w = (Ret pipeline, w1) → kokoro_pipeline w1 = Some pipeline.
Proof.
  unfold _load_kokoro_model, try_except, new_pipeline, emit, modify, lift_outcome,
    gets, mbind, py_bind, mret, py_ret, raise.
  destruct (kokoro_pipeline w) as [p|] eqn:Hc.
  - intros Heq; inversion Heq; subst. exact Hc.
  - destruct (env_kpipeline env) as [vs|e]; [|destruct (exn_cls e); discriminate].
    intros Heq; inversion Heq; subst. reflexivity.
Qed.

(** X2: once [_load_kokoro_model] has returned a pipeline, that pipeline is
    the module's global, and every later call returns it as it is, without
    building a pipeline again and whatever the collaborators would answer. *)
Theorem pipeline_loaded_once env w pipeline w1 :
  _load_kokoro_model env w = (Ret pipeline, w1) →
  kokoro_pipeline w1 = Some pipeline ∧
  ∀ env', _load_kokoro_model env' w1 = (Ret pipeline, w1).
Proof.
  intros Hload. pose proof (load_success_cached env w pipeline w1 Hload) as Hc.
  split; [exact Hc|]. intros env'. exact (load_cached env' w1 pipeline Hc).
Qed.

Lemma pipeline_loaded_once_witness :
  _load_kokoro_model env_no_kokoro (snd (_load_kokoro_model env_ok init_world))
  = (Ret {| voices := ["af_bella"; "am_adam"] |},
     snd (_load_kokoro_model env_ok init_world)).
Proof.
  refine (proj2 (pipeline_loaded_once env_ok init_world
                   {| voices := ["af_bella"; "am_adam"] |}
                   (snd (_load_kokoro_model env_ok init_world)) _) env_no_kokoro).
  vm_compute. reflexivity.
Defined.

(** X3: a failed load reports "Kokoro not installed. Run setup-neo-tts.sh
    first" as an [ImportError] when the cause was an [ImportError], and
    "Failed to load Kokoro model: <cause>" as a [RuntimeError] otherwise;
    it leaves the module's global empty, so the next call builds a pipeline
    again. *)
Theorem pipeline_load_failure env w e w1 :
  _load_kokoro_model env w = (Raise e, w1) →
  (∃ cause, env_kpipeline env = Raise cause ∧
     ((exn_cls cause = ImportError ∧
       e = Exn ImportError "Kokoro not installed. Run setup-neo-tts.sh first") ∨
      (exn_cls cause ≠ ImportError ∧
       e = Exn RuntimeError ("Failed to load Kokoro model: " ++ exn_msg cause)))) ∧
  kokoro_pipeline w1 = None ∧
  ∀ env', events (snd (_load_kokoro_model env' w1)) = (events w1 ++ [EvKPipeline])%list.
Proof.
  unfold _load_kokoro_model, try_except, new_pipeline, emit, modify, lift_outcome,
    gets, mbind, py_bind, mret, py_ret, raise.
  destruct (kokoro_pipeline w) as [p|] eqn:Hc; [discriminate|].
  destruct (env_kpipeline env) as [vs|cause]; [discriminate|].
  intros Heq.
  assert (Hw : w1 = add_event EvKPipeline w)
    by (destruct (exn_cls cause); inversion Heq; reflexivity).
  subst w1. split_and!.
  - exists cause. split; [reflexivity|].
    destruct (exn_cls cause) eqn:Hcls; inversion Heq; subst;
      first [left; split; [reflexivity|reflexivity]
            |right; split; [discriminate|reflexivity]].
  - exact Hc.
  - intros env'. cbn [add_event kokoro_pipeline]. rewrite Hc.
    destruct (env_kpipeline env') as [vs|cause']; [|destruct (exn_cls cause')];
      reflexivity.
Qed.

Lemma pipeline_load_failure_witness :
  kokoro_pipeline (snd (_load_kokoro_model env_no_kokoro init_world)) = None.
Proof.
  refine (proj1 (proj2 (pipeline_load_failure env_no_kokoro init_world
            (Exn ImportError "Kokoro not installed. Run setup-neo-tts.sh first")
            (snd (_load_kokoro_model env_no_kokoro init_world)) _))).
  vm_compute. reflexivity.
Defined.

(** X4: [list_voices] never raises.  It returns the four fallback names, or
    the labels of the voices of the pipeline that is then the module's
    global. *)
Theorem list_voices_never_raises env w :
  ∃ names w', list_voices env w = (Ret names, w') ∧
    (names = fallback_voices ∨
     ∃ pipeline, kokoro_pipeline w' = Some pipeline ∧
                 names = formatted_voices (voices pipeline)).
Proof.
  rewrite list_voices_outcome.
  destruct (_load_kokoro_model env w) as [[pipeline|e] w1] eqn:Hload.
  - eexists _, _. split; [reflexivity|]. right. exists pipeline.
    split; [exact (load_success_cached env w pipeline w1 Hload)|reflexivity].
  - eexists _, _. split; [reflexivity|]. left. reflexivity.
Qed.

Lemma generate_audio_no_pipeline env w e w1 text voice output_path :
  _load_kokoro_model env w = (Raise e, w1) →
  generate_audio env text voice output_path w =
    (Raise (Exn RuntimeError ("Kokoro generation failed: " ++ exn_msg e)), w1).
Proof.
  intros Hload. unfold generate_audio, try_except, raise, mbind, py_bind.
  rewrite Hload. reflexivity.
Qed.

Lemma generate_audio_no_voice env w pipeline w1 text voice output_path :
  _load_kokoro_model env w = (Ret pipeline, w1) →
  effective_voice voice ∉ voices pipeline →
  generate_audio env text voice output_path w =
    (Raise (Exn RuntimeError
              ("Kokoro generation failed: "
               ++ ("Voice '" ++ effective_voice voice ++ "' not available. Available: "
                   ++ env_repr env (voices pipeline)))), w1).
Proof.
  intros Hload Hout. unfold effective_voice in *.
  unfold generate_audio, try_except, raise, mbind, py_bind. rewrite Hload.
  destruct (decide (resolve_voice (default "af_alloy" voice) ∈ voices pipeline))
    as [Hin|_]; [contradiction|]. reflexivity.
Qed.

(** X5: when the voice, after defaulting and resolution, is not among the
    voices of the loaded pipeline, [generate_audio] raises "Kokoro
    generation failed: Voice '<voice>' not available. Available: " followed
    by Python's repr of the list of voices, without calling the pipeline
    and without touching any audio file. *)
Theorem unavailable_voice_rejected env w pipeline w1 text voice output_path :
  _load_kokoro_model env w = (Ret pipeline, w1) →
  effective_voice voice ∉ voices pipeline →
  ∃ w', generate_audio env text voice output_path w =
          (Raise (Exn RuntimeError
                    ("Kokoro generation failed: Voice '" ++ effective_voice voice
                     ++ "' not available. Available: " ++ env_repr env (voices pipeline))),
           w') ∧
        synth_calls (events w') = synth_calls (events w) ∧
        output_files w' = output_files w.
Proof.
  intros Hload Hout. exists w1.
  rewrite (generate_audio_no_voice env w pipeline w1 text voice output_path Hload Hout).
  split_and!.
  - reflexivity.
  - exact (load_keeps_calls env w _ w1 Hload).
  - exact (proj1 (load_keeps_files env w _ w1 Hload)).
Qed.

Lemma unavailable_voice_rejected_witness :
  ∃ w', generate_audio env_ok "Hello world" None "out.wav" init_world =
          (Raise (Exn RuntimeError
                    "Kokoro generation failed: Voice 'af_alloy' not available. Available: ['af_bella', 'am_adam']"),
           w') ∧
        synth_calls (events w') = synth_calls (events init_world) ∧
        output_files w' = output_files init_world.
Proof.
  refine (unavailable_voice_rejected env_ok init_world
            {| voices := ["af_bella"; "am_adam"] |}
            (snd (_load_kokoro_model env_ok init_world))
            "Hello world" None "out.wav" _ _).
  - vm_compute. reflexivity.
  - compute_done.
Defined.

(** X6: a voice may be named by its code or by the display name of that
    code: [generate_audio] does the same, to the same world, either way. *)
Theorem display_name_or_code env text code display output_path w :
  voice_formats !! code = Some display →
  generate_audio env text (Some display) output_path w
  = generate_audio env text (Some code) output_path w.
Proof.
  intros Hfmt.
  pose proof (formats_to_mapping code display Hfmt) as Hmap. cbv beta in Hmap.
  pose proof (codes_are_not_display_names code display Hfmt) as Hnone. cbv beta in Hnone.
  assert (Hd : resolve_voice display = code)
    by (unfold resolve_voice; rewrite Hmap; reflexivity).
  assert (Hc : resolve_voice code = code)
    by (unfold resolve_voice; rewrite Hnone; reflexivity).
  unfold generate_audio. cbv zeta.
  change (default "af_alloy" (Some display)) with display.
  change (default "af_alloy" (Some code)) with code.
  rewrite Hd, Hc. reflexivity.
Qed.

Lemma display_name_or_code_witness :
  generate_audio env_ok "Hello world" (Some bella) "out.wav" init_world
  = generate_audio env_ok "Hello world" (Some "af_bella") "out.wav" init_world.
Proof.
  apply (display_name_or_code env_ok "Hello world" "af_bella" bella "out.wav" init_world).
  compute_done.
Defined.

(** X7: whatever goes wrong in [generate_audio], be it the load, the voice,
    the pipeline or [sf.write], the caller sees a [RuntimeError] whose
    message starts with "Kokoro generation failed: ".  The audio files are
    then as they were before the call, unless it was [sf.write] that
    failed after opening the output path: then that path, and no other,
    holds what the failed write left there. *)
Theorem backend_failures_wrapped env text voice output_path w e w' :
  generate_audio env text voice output_path w = (Raise e, w') →
  exn_cls e = RuntimeError ∧
  (∃ cause, exn_msg e = "Kokoro generation failed: " ++ cause) ∧
  (output_files w' = output_files w ∨
   ∃ cause residue,
     env_sf_write_error env output_path = Some cause ∧
     env_sf_write_residue env output_path = Some residue ∧
     exn_msg e = "Kokoro generation failed: " ++ exn_msg cause ∧
     output_files w' = <[output_path := residue]> (output_files w)).
Proof.
  destruct (_load_kokoro_model env w) as [[pipeline|e0] w1] eqn:Hload;
    pose proof (proj1 (load_keeps_files env w _ w1 Hload)) as Hfiles.
  - destruct (decide (effective_voice voice ∈ voices pipeline)) as [Hin|Hout].
    + rewrite (generate_audio_unfold env w pipeline w1 text voice output_path Hload Hin).
      cbv zeta.
      destruct (env_synthesize env text (effective_voice voice)) as [[|seg segs]|e1];
        [| destruct (env_sf_write_error env output_path) as [e1|] eqn:Herr |];
        intros Heq; inversion Heq; subst; clear Heq;
        (split_and!; [reflexivity|eexists; reflexivity|]);
        try (left; exact Hfiles).
      unfold after_failed_write.
      destruct (env_sf_write_residue env output_path) as [residue|] eqn:Hres;
        [|left; exact Hfiles].
      right. exists e1, residue. split_and!; try reflexivity.
      cbn [set_output_files add_event output_files]. rewrite Hfiles. reflexivity.
    + rewrite (generate_audio_no_voice env w pipeline w1 text voice output_path Hload Hout).
      intros Heq; inversion Heq; subst; clear Heq.
      split_and!; [reflexivity|eexists; reflexivity|left; exact Hfiles].
  - rewrite (generate_audio_no_pipeline env w e0 w1 text voice output_path Hload).
    intros Heq; inversion Heq; subst; clear Heq.
    split_and!; [reflexivity|eexists; reflexivity|left; exact Hfiles].
Qed.

Lemma backend_failures_wrapped_witness :
  exn_cls (Exn RuntimeError
             "Kokoro generation failed: dtype must be one of ['float32', 'float64', 'int16', 'int32'] and not 'float16'")
  = RuntimeError ∧
  (∃ cause, "Kokoro generation failed: dtype must be one of ['float32', 'float64', 'int16', 'int32'] and not 'float16'"
            = "Kokoro generation failed: " ++ cause) ∧
  (output_files (snd (generate_audio env_write_rejected "Hello world" (Some bella)
                        "out.wav" init_world))
   = output_files init_world ∨
   ∃ cause residue,
     env_sf_write_error env_write_rejected "out.wav" = Some cause ∧
     env_sf_write_residue env_write_rejected "out.wav" = Some residue ∧
     "Kokoro generation failed: dtype must be one of ['float32', 'float64', 'int16', 'int32'] and not 'float16'"
     = "Kokoro generation failed: " ++ exn_msg cause ∧
     output_files (snd (generate_audio env_write_rejected "Hello world" (Some bella)
                          "out.wav" init_world))
     = <[ "out.wav" := residue ]> (output_files init_world)).
Proof.
  refine (backend_failures_wrapped env_write_rejected "Hello world" (Some bella)
            "out.wav" init_world
            (Exn RuntimeError
               "Kokoro generation failed: dtype must be one of ['float32', 'float64', 'int16', 'int32'] and not 'float16'")
            (snd (generate_audio env_write_rejected "Hello world" (Some bella)
                    "out.wav" init_world))
            _).
  vm_compute. reflexivity.
Defined.

(** A rejected write leaves an empty file where the audio should be. *)
Example rejected_write_leaves_empty_file :
  output_files (snd (generate_audio env_write_rejected "Hello world" (Some bella)
                       "out.wav" init_world)) !! "out.wav"
  = Some {| wav_data := []; wav_rate := 24000 |}.
Proof. vm_compute. reflexivity. Qed.

(** X8: [generate_audio] writes to its output path and nowhere else: every
    other audio file is after the call what it was before, and after a
    successful call the output path holds audio at 24000 Hz. *)
Theorem generate_writes_only_output_path env text voice output_path w o w' :
  generate_audio env text voice output_path w = (o, w') →
  (∀ path, path ≠ output_path → output_files w' !! path = output_files w !! path) ∧
  (∀ result, o = Ret result →
     result = output_path ∧
     ∃ data, output_files w' !! output_path
             = Some {| wav_data := data; wav_rate := 24000 |}).
Proof.
  destruct (_load_kokoro_model env w) as [[pipeline|e0] w1] eqn:Hload;
    pose proof (proj1 (load_keeps_files env w _ w1 Hload)) as Hfiles.
  - destruct (decide (effective_voice voice ∈ voices pipeline)) as [Hin|Hout].
    + rewrite (generate_audio_unfold env w pipeline w1 text voice output_path Hload Hin).
      cbv zeta.
      destruct (env_synthesize env text (effective_voice voice)) as [[|seg segs]|e1];
        [| destruct (env_sf_write_error env output_path) as [e1|] |];
        intros Heq; inversion Heq; subst; clear Heq;
        (split; [intros path Hne|intros result Hres; try discriminate]);
        rewrite ?(failed_write_other_files env output_path _ path) by exact Hne;
        cbn [set_output_files add_event output_files]; rewrite ?Hfiles;
        try reflexivity.
      * rewrite lookup_insert_ne by congruence. reflexivity.
      * inversion Hres; subst. split; [reflexivity|].
        eexists. apply lookup_insert_eq.
    + rewrite (generate_audio_no_voice env w pipeline w1 text voice output_path Hload Hout).
      intros Heq; inversion Heq; subst; clear Heq.
      split; [intros; rewrite Hfiles; reflexivity|discriminate].
  - rewrite (generate_audio_no_pipeline env w e0 w1 text voice output_path Hload).
    intros Heq; inversion Heq; subst; clear Heq.
    split; [intros; rewrite Hfiles; reflexivity|discriminate].
Qed.

Lemma generate_writes_only_output_path_witness :
  output_files (snd (generate_audio env_ok "Hello world" (Some bella) "out.wav" init_world))
    !! "other.wav"
  = output_files init_world !! "other.wav".
Proof.
  refine (proj1 (generate_writes_only_output_path env_ok "Hello world" (Some bella)
                   "out.wav" init_world
                   (fst (generate_audio env_ok "Hello world" (Some bella) "out.wav" init_world))
                   (snd (generate_audio env_ok "Hello world" (Some bella) "out.wav" init_world))
                   _) "other.wav" _).
  - vm_compute. reflexivity.
  - discriminate.
Defined.

Lemma ends_with_app (suffix c : string) : ends_with suffix (c ++ suffix) = true.
Proof.
  induction c as [|a c IH].
  - change ("" ++ suffix) with suffix.
    destruct suffix; cbn [ends_with]; rewrite bool_decide_eq_true_2 by reflexivity;
      reflexivity.
  - change (String a c ++ suffix) with (String a (c ++ suffix)).
    cbn [ends_with]. rewrite IH. apply orb_true_r.
Qed.

Lemma no_display_name_ends_unknown :
  map_Forall (λ display _, ends_with " (Unknown)" display = false) _get_voice_mapping.
Proof. compute_done. Qed.

(** X9: a voice the table does not know is listed under the label
    "<code> (Unknown)", and that label is no way back to it: the label is
    not a display name of the mapping, so [generate_audio] looks for a
    voice of that very name and, unless the pipeline has one, fails with
    "Voice '<code> (Unknown)' not available. Available: " and Python's repr
    of the list of voices, before calling the pipeline. *)
Theorem unknown_label_not_usable env w pipeline w1 text code output_path :
  voice_formats !! code = None →
  _load_kokoro_model env w = (Ret pipeline, w1) →
  (code ++ " (Unknown)") ∉ voices pipeline →
  resolve_voice (format_voice code) = code ++ " (Unknown)" ∧
  generate_audio env text (Some (format_voice code)) output_path w =
    (Raise (Exn RuntimeError
              ("Kokoro generation failed: Voice '" ++ (code ++ " (Unknown)")
               ++ "' not available. Available: " ++ env_repr env (voices pipeline))), w1).
Proof.
  intros Hfmt Hload Hout.
  assert (Hlabel : format_voice code = code ++ " (Unknown)")
    by (unfold format_voice; rewrite Hfmt; reflexivity).
  assert (Hres : resolve_voice (code ++ " (Unknown)") = code ++ " (Unknown)").
  { unfold resolve_voice.
    destruct (_get_voice_mapping !! (code ++ " (Unknown)")) as [c|] eqn:Hmap;
      [|reflexivity].
    pose proof (no_display_name_ends_unknown _ _ Hmap) as Hends. cbv beta in Hends.
    rewrite ends_with_app in Hends. discriminate. }
  rewrite Hlabel. split; [exact Hres|].
  assert (Heff : effective_voice (Some (code ++ " (Unknown)")) = code ++ " (Unknown)")
    by exact Hres.
  rewrite (generate_audio_no_voice env w pipeline w1 text
             (Some (code ++ " (Unknown)")) output_path Hload
             ltac:(rewrite Heff; exact Hout)).
  rewrite Heff. reflexivity.
Qed.

Lemma unknown_label_not_usable_witness :
  resolve_voice (format_voice "xx_custom") = "xx_custom (Unknown)".
Proof.
  refine (proj1 (unknown_label_not_usable env_ok init_world
                   {| voices := ["af_bella"; "am_adam"] |}
                   (snd (_load_kokoro_model env_ok init_world))
                   "Hello world" "xx_custom" "out.wav" _ _ _)).
  - compute_done.
  - vm_compute. reflexivity.
  - compute_done.
Defined.

End BackendMore.

(** * More on the generation endpoint *)

Section GenerationMore.

Import App.

Lemma generate_audio_null_text env data w :
  get_text (req_text data) = None →
  generate_audio env data w =
    ({| status := 500;
        payload := ErrorBody "'NoneType' object has no attribute 'strip'" |}, w).
Proof.
  intros Htext. unfold generate_audio, endpoint, stripped_text, raise, mbind, py_bind.
  rewrite Htext. reflexivity.
Qed.

Lemma generate_audio_bad_model env data w text :
  get_text (req_text data) = Some text →
  (∀ m, req_model data = Some m → MODELS !! m = None) →
  generate_audio env data w =
    ({| status := 400; payload := ErrorBody "Invalid model" |}, w).
Proof.
  intros Htext Hbad.
  unfold generate_audio, endpoint, stripped_text, mbind, py_bind, mret, py_ret.
  rewrite Htext. destruct (req_model data) as [m|]; [|reflexivity].
  rewrite (Hbad m eq_refl). rewrite bool_decide_eq_true_2 by reflexivity.
  rewrite orb_true_r. reflexivity.
Qed.

Lemma generate_audio_blank env data w text m info :
  get_text (req_text data) = Some text →
  req_model data = Some m →
  MODELS !! m = Some info →
  PyStr.strip text = "" →
  generate_audio env data w =
    ({| status := 400; payload := ErrorBody "Text is required" |}, w).
Proof.
  intros Htext Hmodel Hreg Hblank.
  pose proof (registered_model m info Hreg) as ->.
  unfold generate_audio, endpoint, stripped_text, mbind, py_bind, mret, py_ret.
  rewrite Htext, Hmodel, Hblank.
  replace (PyStr.falsy "kokoro" || bool_decide (MODELS !! "kokoro" = None))
    with false by (vm_compute; reflexivity).
  reflexivity.
Qed.

(** A returning backend call has written its output path and returns it. *)
Lemma backend_ret_path env text voice output_path w result w' :
  Kokoro.generate_audio env text voice output_path w = (Ret result, w') →
  result = output_path ∧
  (∃ data, output_files w' !! output_path
           = Some {| wav_data := data; wav_rate := 24000 |}) ∧
  ∃ pipeline, kokoro_pipeline w' = Some pipeline ∧
              effective_voice voice ∈ voices pipeline.
Proof.
  destruct (Kokoro._load_kokoro_model env w) as [[pipeline|e0] w1] eqn:Hload.
  - destruct (decide (effective_voice voice ∈ voices pipeline)) as [Hin|Hout].
    + rewrite (generate_audio_unfold env w pipeline w1 text voice output_path Hload Hin).
      cbv zeta.
      destruct (env_synthesize env text (effective_voice voice)) as [[|seg segs]|e1];
        [discriminate| |discriminate].
      destruct (env_sf_write_error env output_path) as [e1|]; [discriminate|].
      intros Heq; inversion Heq; subst; clear Heq. split_and!; [reflexivity| |].
      * eexists. cbn [set_output_files output_files]. apply lookup_insert_eq.
      * exists pipeline. split; [|exact Hin].
        exact (load_success_cached env w pipeline w1 Hload).
    + rewrite (generate_audio_no_voice env w pipeline w1 text voice output_path Hload Hout).
      discriminate.
  - rewrite (generate_audio_no_pipeline env w e0 w1 text voice output_path Hload).
    discriminate.
Qed.

(** The three ways a request can end. *)
Lemma generate_audio_effect env data w :
  let response := fst (generate_audio env data w) in
  let w' := snd (generate_audio env data w) in
  (status response = 400%nat ∧ w' = w ∧
   ∃ text, get_text (req_text data) = Some text ∧
           ((∀ m, req_model data = Some m → MODELS !! m = None) ∨
            PyStr.strip text = "")) ∨
  (status response = 500%nat ∧ (∃ error, payload response = ErrorBody error) ∧
   default [] (results_csv w) `prefix_of` default [] (results_csv w') ∧
   (env_ledger_error env = None ∨ env_ledger_progress env = None →
    results_csv w' = results_csv w) ∧
   ∀ text, get_text (req_text data) = Some text →
           (∃ m, req_model data = Some m ∧ is_Some (MODELS !! m)) ∧
           PyStr.strip text ≠ "") ∨
  (status response = 200%nat ∧
   ∃ model_name raw r,
     req_model data = Some model_name ∧
     get_text (req_text data) = Some raw ∧
     PyStr.strip raw ≠ "" ∧
     payload response =
       GenerateBody ("/static/output/" ++ output_filename env model_name)
         model_name (req_voice data) (row_duration r) ∧
     (∃ data, output_files w' !! output_path_for env model_name
              = Some {| wav_data := data; wav_rate := 24000 |}) ∧
     results_csv w' =
       Some (default [Header ledger_header] (results_csv w) ++ [Row r])%list ∧
     r = ledger_row env model_name (req_voice data) (PyStr.strip raw)
           (output_path_for env model_name) w' ∧
     ∃ pipeline,
       model_modules w' !! model_name = Some ModelsKokoro ∧
       kokoro_pipeline w' = Some pipeline ∧
       effective_voice (req_voice data) ∈ voices pipeline).
Proof.
  cbv zeta.
  destruct (get_text (req_text data)) as [raw|] eqn:Htext.
  2:{ rewrite (generate_audio_null_text env data w Htext). right. left.
      cbn [fst snd status payload].
      split_and!; [reflexivity|by eexists|reflexivity|reflexivity|discriminate]. }
  destruct (req_model data) as [model_name|] eqn:Hmodel.
  2:{ rewrite (generate_audio_bad_model env data w raw Htext)
        by (rewrite Hmodel; discriminate).
      left. cbn [fst snd status].
      split_and!; [reflexivity|reflexivity|].
      exists raw. split; [reflexivity|]. left. discriminate. }
  destruct (MODELS !! model_name) as [info|] eqn:Hreg.
  2:{ rewrite (generate_audio_bad_model env data w raw Htext)
        by (rewrite Hmodel; intros m Hm; inversion Hm; subst; exact Hreg).
      left. cbn [fst snd status].
      split_and!; [reflexivity|reflexivity|].
      exists raw. split; [reflexivity|]. left.
      intros m Hm; inversion Hm; subst; exact Hreg. }
  destruct (decide (PyStr.strip raw = "")) as [Hblank|Hnonblank].
  { rewrite (generate_audio_blank env data w raw model_name info Htext Hmodel Hreg Hblank).
    left. cbn [fst snd status].
    split_and!; [reflexivity|reflexivity|].
    exists raw. split; [reflexivity|]. right. exact Hblank. }
  assert (Hvalid : ∀ text, Some raw = Some text →
            (∃ m, Some model_name = Some m ∧ is_Some (MODELS !! m)) ∧
            PyStr.strip text ≠ "").
  { intros text Heq; inversion Heq; subst.
    split; [exists model_name; split; [reflexivity|rewrite Hreg; by eexists]|exact Hnonblank]. }
  rewrite (generate_audio_run env data w raw model_name info Hmodel Hreg Htext Hnonblank).
  cbv zeta.
  destruct (get_model_module env model_name w) as [[m|e] w1] eqn:Hget;
    pose proof (get_model_module_keeps env model_name w _ w1 Hget)
      as (_ & _ & _ & Hcsv1 & _).
  2:{ right. left. cbn [fst snd status payload].
      split_and!; [reflexivity|by eexists|by rewrite Hcsv1|intros _; exact Hcsv1
                  |exact Hvalid]. }
  destruct m. cbn [module_generate_audio].
  destruct (Kokoro.generate_audio env (PyStr.strip raw) (req_voice data)
              (output_path_for env model_name) w1) as [[result_path|e] w2] eqn:Hgen;
    pose proof (backend_generate_calls env _ _ _ w1 _ w2 Hgen) as (Hcsv2 & _ & _).
  2:{ right. left. cbn [fst snd status payload add_event results_csv].
      split_and!; [reflexivity|by eexists|by rewrite Hcsv2, Hcsv1
                  |intros _; congruence|exact Hvalid]. }
  destruct (backend_ret_path env _ _ _ w1 _ w2 Hgen) as (-> & Hfile & p & Hp & Hvoice).
  pose proof (get_model_module_caches env model_name w _ w1 Hget) as Hcached.
  pose proof (backend_generate_calls env _ _ _ w1 _ w2 Hgen) as (_ & Hmods2 & _).
  rewrite log_generation_outcome.
  destruct (env_ledger_error env) as [e|] eqn:Hledger.
  { right. left. cbn [fst snd status payload add_event results_csv].
    destruct (failed_append_ledger env
                (ledger_row env model_name (req_voice data) (PyStr.strip raw)
                   (output_path_for env model_name) w2) w2) as (Hprefix & Hclosed).
    split_and!; [reflexivity|by eexists| | |exact Hvalid].
    - rewrite <- Hcsv1, <- Hcsv2. exact Hprefix.
    - intros [Hnone|Hnone]; [discriminate|].
      rewrite (Hclosed Hnone). congruence. }
  right. right. cbn [fst snd status payload].
  split; [reflexivity|].
  exists model_name, raw,
    (ledger_row env model_name (req_voice data) (PyStr.strip raw)
       (output_path_for env model_name) w2).
  split_and!; try reflexivity; try assumption.
  - cbn [set_results_csv results_csv]. unfold ledger_after.
    rewrite Hcsv2, Hcsv1. destruct (results_csv w); reflexivity.
  - exists p. cbn [set_results_csv model_modules kokoro_pipeline].
    split_and!; [rewrite Hmods2; exact Hcached|exact Hp|exact Hvoice].
Qed.

Lemma unregistered_model (m : string) : m ≠ "kokoro" → MODELS !! m = None.
Proof. intros Hne. unfold MODELS. apply lookup_singleton_ne. congruence. Qed.

(** X10: a request whose model is missing, null, empty or anything but
    "kokoro" is answered 400 "Invalid model" and changes nothing, whatever
    its text (a string or missing) is: the model is checked before the
    text, so a blank text with a bad model is reported as a bad model. *)
Theorem invalid_model_rejected env data w text :
  get_text (req_text data) = Some text →
  (req_model data = None ∨ ∃ m, req_model data = Some m ∧ m ≠ "kokoro") →
  generate_audio env data w =
    ({| status := 400; payload := ErrorBody "Invalid model" |}, w).
Proof.
  intros Htext Hbad. apply (generate_audio_bad_model env data w text Htext).
  intros m Hm. destruct Hbad as [Hnone|(m' & Hm' & Hne)].
  - rewrite Hnone in Hm. discriminate.
  - rewrite Hm' in Hm. inversion Hm; subst. exact (unregistered_model m Hne).
Qed.

Lemma invalid_model_rejected_witness :
  generate_audio env_ok
    {| req_model := Some "tacotron"; req_voice := None; req_text := TextStr "  " |}
    init_world
  = ({| status := 400; payload := ErrorBody "Invalid model" |}, init_world).
Proof.
  refine (invalid_model_rejected env_ok
            {| req_model := Some "tacotron"; req_voice := None; req_text := TextStr "  " |}
            init_world "  " _ _).
  - reflexivity.
  - right. exists "tacotron". split; [reflexivity|discriminate].
Defined.

(** X11: for a request whose model is a JSON string, null or missing and
    whose text is a JSON string, null or missing (the requests of type
    [Request]), the endpoint answers 400 exactly when the text is not null
    and either the model is not a registered one or the text is empty once
    stripped; and then the world is untouched. *)
Theorem bad_request_iff env data w :
  (status (fst (generate_audio env data w)) = 400%nat ↔
   ∃ text, get_text (req_text data) = Some text ∧
           ((∀ m, req_model data = Some m → MODELS !! m = None) ∨
            PyStr.strip text = "")) ∧
  (status (fst (generate_audio env data w)) = 400%nat →
   snd (generate_audio env data w) = w).
Proof.
  split; [|intros H400;
           destruct (generate_audio_effect env data w)
             as [(_ & Hw & _)|[(H500 & _)|(H200 & _)]];
           [exact Hw|rewrite H400 in H500; discriminate
           |rewrite H400 in H200; discriminate]].
  split.
  - intros H400.
    destruct (generate_audio_effect env data w)
      as [(_ & _ & Hcase)|[(H500 & _)|(H200 & _)]];
      [exact Hcase|rewrite H400 in H500; discriminate
      |rewrite H400 in H200; discriminate].
  - intros (text & Htext & Hcase).
    destruct (req_model data) as [m|] eqn:Hmodel.
    + destruct (MODELS !! m) as [info|] eqn:Hreg.
      * destruct Hcase as [Hbad|Hblank].
        { rewrite (Hbad m eq_refl) in Hreg. discriminate. }
        rewrite (generate_audio_blank env data w text m info Htext Hmodel Hreg Hblank).
        reflexivity.
      * rewrite (generate_audio_bad_model env data w text Htext); [reflexivity|].
        rewrite Hmodel. intros m' Hm'; inversion Hm'; subst. exact Hreg.
    + rewrite (generate_audio_bad_model env data w text Htext); [reflexivity|].
      rewrite Hmodel. discriminate.
Qed.

Lemma bad_request_iff_witness :
  status (fst (generate_audio env_ok
                 {| req_model := Some "kokoro"; req_voice := None;
                    req_text := TextMissing |} init_world)) = 400%nat.
Proof.
  apply (proj2 (proj1 (bad_request_iff env_ok
                  {| req_model := Some "kokoro"; req_voice := None;
                     req_text := TextMissing |} init_world))).
  exists "". split; [reflexivity|]. right. vm_compute. reflexivity.
Defined.

(** X12: an answer of 200 means the work was done and recorded.  The
    request named a model and a text that is not blank; the audio file
    exists at [OUTPUT_DIR/<model>_<timestamp>.wav] and the answer's
    [audio_url] is "/static/output/" followed by that file name; the
    answer echoes the voice as sent; and the ledger is the old one (or a
    fresh header) followed by one new row with this model, the speaker
    (or "default"), the excerpt of the stripped text, the output path, and
    the very duration the answer reports. *)
Theorem success_means_file_and_row env data w :
  let response := fst (generate_audio env data w) in
  let w' := snd (generate_audio env data w) in
  status response = 200%nat →
  ∃ model_name raw r,
    req_model data = Some model_name ∧
    get_text (req_text data) = Some raw ∧
    PyStr.strip raw ≠ "" ∧
    payload response =
      GenerateBody ("/static/output/" ++ output_filename env model_name)
        model_name (req_voice data) (row_duration r) ∧
    is_Some (output_files w' !! output_path_for env model_name) ∧
    results_csv w' =
      Some (default [Header ledger_header] (results_csv w) ++ [Row r])%list ∧
    row_timestamp r = env_strftime env ∧
    row_model r = model_name ∧
    row_speaker r = speaker_or_default (req_voice data) ∧
    row_text r = text_excerpt (PyStr.strip raw) ∧
    row_output_path r = output_path_for env model_name.
Proof.
  cbv zeta. intros H200.
  destruct (generate_audio_effect env data w)
    as [(H400 & _)|[(H500 & _)|(_ & model_name & raw & r & Hm & Ht & Hnb & Hp & Hf & Hl & Hr & _)]];
    [rewrite H200 in H400; discriminate|rewrite H200 in H500; discriminate|].
  exists model_name, raw, r.
  split_and!; try assumption; try (rewrite Hr; reflexivity).
  destruct Hf as [samples Hsamples]. rewrite Hsamples. by eexists.
Qed.

Lemma success_means_file_and_row_witness :
  ∃ model_name raw r,
    req_model bella_request = Some model_name ∧
    get_text (req_text bella_request) = Some raw ∧
    PyStr.strip raw ≠ "" ∧
    payload (fst (generate_audio env_ok bella_request init_world)) =
      GenerateBody ("/static/output/" ++ output_filename env_ok model_name)
        model_name (req_voice bella_request) (row_duration r) ∧
    is_Some (output_files (snd (generate_audio env_ok bella_request init_world))
               !! output_path_for env_ok model_name) ∧
    results_csv (snd (generate_audio env_ok bella_request init_world)) =
      Some (default [Header ledger_header] (results_csv init_world) ++ [Row r])%list ∧
    row_timestamp r = env_strftime env_ok ∧
    row_model r = model_name ∧
    row_speaker r = speaker_or_default (req_voice bella_request) ∧
    row_text r = text_excerpt (PyStr.strip raw) ∧
    row_output_path r = output_path_for env_ok model_name.
Proof.
  refine (success_means_file_and_row env_ok bella_request init_world _).
  vm_compute. reflexivity.
Defined.



(** X14: as long as no append to the ledger fails after opening the file,
    the endpoint keeps the ledger well formed: a ledger that is absent, or
    is the header followed by data rows only, is so again after the
    request.  The header is then written once, by the request that creates
    the file. *)
Theorem ledger_stays_well_formed env data w :
  env_ledger_error env = None ∨ env_ledger_progress env = None →
  ledger_ok w → ledger_ok (snd (generate_audio env data w)).
Proof.
  intros Hclean Hok.
  destruct (generate_audio_effect env data w)
    as [(_ & Hw & _)
       |[(_ & _ & _ & Hcsv & _)
        |(_ & m & raw & r & _ & _ & _ & _ & _ & Hl & _)]].
  - rewrite Hw. exact Hok.
  - unfold ledger_ok in *. rewrite (Hcsv Hclean). exact Hok.
  - unfold ledger_ok in *. rewrite Hl.
    destruct (results_csv w) as [lines|]; cbn [default from_option id].
    + destruct Hok as (rows & -> & Hrows).
      exists (rows ++ [Row r])%list. split; [reflexivity|].
      apply Forall_app. split; [exact Hrows|]. repeat constructor.
    + exists [Row r]. split; [reflexivity|]. repeat constructor.
Qed.

Lemma ledger_stays_well_formed_witness :
  ledger_ok (snd (generate_audio env_ok bella_request init_world)).
Proof.
  apply (ledger_stays_well_formed env_ok bella_request init_world).
  - left. reflexivity.
  - exact I.
Defined.

(** An append that failed after opening the file can leave it empty; the
    next request then finds the file and appends its row with no header
    before it. *)
Example row_without_header_after_failure :
  results_csv (snd (generate_audio env_ok bella_request
                      (snd (generate_audio env_disk_full bella_request init_world))))
  = Some [Row {| row_timestamp := "2023-11-14 22:13:20";
                 row_model := "kokoro";
                 row_speaker := "🇺🇸 Bella 🚺🔥 (A-)";
                 row_text := "Hello world";
                 row_duration := 5 # 24000;
                 row_output_path :=
                   "/srv/neo-tts/app/static/output/kokoro_1700000000.wav" |}].
Proof. vm_compute. reflexivity. Qed.

Lemma get_voices_cached env model_name w pipeline :
  model_modules w !! model_name = Some ModelsKokoro →
  kokoro_pipeline w = Some pipeline →
  get_voices env model_name w =
    ({| status := 200;
        payload := VoicesBody (Kokoro.formatted_voices (voices pipeline)) |}, w).
Proof.
  intros Hm Hp. unfold get_voices, endpoint, mbind, py_bind, mret, py_ret.
  rewrite (get_model_module_cached env model_name w ModelsKokoro Hm).
  cbn [module_list_voices]. rewrite list_voices_outcome.
  rewrite (load_cached env w pipeline Hp). reflexivity.
Qed.

(** X15: after a generation answered 200, the voices endpoint for the same
    model answers from what is loaded: whatever the collaborators would do
    now, it returns 200 with the labels of the loaded pipeline's voices,
    changes nothing, and the label of the voice just used is among them. *)
Theorem voices_after_generation env data w :
  let w' := snd (generate_audio env data w) in
  status (fst (generate_audio env data w)) = 200%nat →
  ∃ model_name pipeline,
    req_model data = Some model_name ∧
    kokoro_pipeline w' = Some pipeline ∧
    Kokoro.format_voice (effective_voice (req_voice data))
      ∈ Kokoro.formatted_voices (voices pipeline) ∧
    ∀ env',
      get_voices env' model_name w' =
        ({| status := 200;
            payload := VoicesBody (Kokoro.formatted_voices (voices pipeline)) |}, w').
Proof.
  cbv zeta. intros H200.
  destruct (generate_audio_effect env data w)
    as [(H400 & _)|[(H500 & _)
       |(_ & model_name & raw & r & Hm & _ & _ & _ & _ & _ & _ & p & Hmod & Hp & Hv)]];
    [rewrite H200 in H400; discriminate|rewrite H200 in H500; discriminate|].
  exists model_name, p. split_and!; [exact Hm|exact Hp| |].
  - rewrite formatted_voices_fmap. apply list_elem_of_fmap. eexists. split; [reflexivity|exact Hv].
  - intros env'. exact (get_voices_cached env' model_name _ p Hmod Hp).
Qed.

Lemma voices_after_generation_witness :
  ∃ model_name pipeline,
    req_model bella_request = Some model_name ∧
    kokoro_pipeline (snd (generate_audio env_ok bella_request init_world)) = Some pipeline ∧
    Kokoro.format_voice (effective_voice (req_voice bella_request))
      ∈ Kokoro.formatted_voices (voices pipeline) ∧
    ∀ env',
      get_voices env' model_name (snd (generate_audio env_ok bella_request init_world)) =
        ({| status := 200;
            payload := VoicesBody (Kokoro.formatted_voices (voices pipeline)) |},
         snd (generate_audio env_ok bella_request init_world)).
Proof.
  refine (voices_after_generation env_ok bella_request init_world _).
  vm_compute. reflexivity.
Defined.

(** X19: the [audio_duration] of a 200 answer, before rounding, is what
    could be read back from the file just written: the number of samples
    over 24000 when soundfile reads the file, and 0 when it does not. *)
Theorem reported_duration env data w model_name :
  let response := fst (generate_audio env data w) in
  let w' := snd (generate_audio env data w) in
  status response = 200%nat →
  req_model data = Some model_name →
  ∃ audio_url data_written,
    output_files w' !! output_path_for env model_name
      = Some {| wav_data := data_written; wav_rate := 24000 |} ∧
    payload response =
      GenerateBody audio_url model_name (req_voice data)
        (if env_sf_read_fails env (output_path_for env model_name) then 0%Q
         else (Z.of_nat (length data_written) # 24000)).
Proof.
  cbv zeta. intros H200 Hmodel.
  destruct (generate_audio_effect env data w)
    as [(H400 & _)|[(H500 & _)
       |(_ & m & raw & r & Hm & _ & _ & Hp & (samples & Hf) & _ & Hr & _)]];
    [rewrite H200 in H400; discriminate|rewrite H200 in H500; discriminate|].
  rewrite Hmodel in Hm. inversion Hm; subst m.
  eexists _, samples. split; [exact Hf|].
  rewrite Hp. f_equal. rewrite Hr.
  cbn [ledger_row row_duration]. unfold duration_of, sf_read.
  destruct (env_sf_read_fails env (output_path_for env model_name)); [reflexivity|].
  rewrite Hf. reflexivity.
Qed.

Lemma reported_duration_witness :
  ∃ audio_url data_written,
    output_files (snd (generate_audio env_ok bella_request init_world))
      !! output_path_for env_ok "kokoro"
      = Some {| wav_data := data_written; wav_rate := 24000 |} ∧
    payload (fst (generate_audio env_ok bella_request init_world)) =
      GenerateBody audio_url "kokoro" (req_voice bella_request)
        (if env_sf_read_fails env_ok (output_path_for env_ok "kokoro") then 0%Q
         else (Z.of_nat (length data_written) # 24000)).
Proof.
  refine (reported_duration env_ok bella_request init_world "kokoro" _ _).
  - vm_compute. reflexivity.
  - reflexivity.
Defined.

(** X16: the voices endpoint only looks: whatever it answers, it has not
    called the pipeline, written an audio file or touched the ledger. *)
Theorem get_voices_only_looks env model_name w :
  let w' := snd (get_voices env model_name w) in
  synth_calls (events w') = synth_calls (events w) ∧
  output_files w' = output_files w ∧
  results_csv w' = results_csv w.
Proof.
  cbv zeta. unfold get_voices, endpoint, mbind, py_bind, mret, py_ret.
  destruct (get_model_module env model_name w) as [[m|e] w1] eqn:Hget;
    pose proof (get_model_module_keeps env model_name w _ w1 Hget)
      as (_ & _ & Hf1 & Hc1 & Hs1).
  - destruct m. cbn [module_list_voices]. rewrite list_voices_outcome.
    destruct (Kokoro._load_kokoro_model env w1) as [[p|e] w2] eqn:Hload;
      pose proof (load_keeps_files env w1 _ w2 Hload) as (Hf2 & Hc2 & _);
      pose proof (load_keeps_calls env w1 _ w2 Hload) as Hs2;
      cbn [snd]; split_and!; congruence.
  - cbn [snd]. split_and!; assumption.
Qed.

End GenerationMore.

(** * The excerpt written to the ledger *)

Section Excerpt.

Import PyStr.

Lemma chars_nil (s : string) : chars s = [] → s = "".
Proof.
  destruct s as [|a s]; [reflexivity|]. cbn [chars].
  destruct (chars s); [discriminate|].
  destruct (starts_with_continuation s); discriminate.
Qed.

Lemma chars_cons_nonblank (a : ascii) (y : string) :
  starts_with_continuation y = false →
  chars (String a y) = String a "" :: chars y.
Proof.
  intros Hy. cbn [chars]. destruct (chars y); [reflexivity|].
  rewrite Hy. reflexivity.
Qed.

(** A chunk in front of a text that starts a new character is the first
    character of the whole. *)
Lemma chars_chunk_app (c y : string) :
  is_chunk c → starts_with_continuation y = false → chars (c ++ y) = c :: chars y.
Proof.
  destruct c as [|a rest]; [contradiction|]. cbn [is_chunk].
  revert a. induction rest as [|b rest IH]; intros a Hrest Hy.
  - change (String a "" ++ y) with (String a y). exact (chars_cons_nonblank a y Hy).
  - cbn in Hrest. inversion Hrest as [|? ? Hb Hrest']; subst.
    change (String a (String b rest) ++ y) with (String a (String b rest ++ y)).
    cbn [chars]. rewrite (IH b Hrest' Hy).
    change (String b rest ++ y) with (String b (rest ++ y)).
    cbn [starts_with_continuation]. rewrite Hb. reflexivity.
Qed.

Lemma chars_separated (s : string) : separated (chars s).
Proof.
  induction s as [|a s IH]; [exact I|].
  cbn [chars]. destruct (chars s) as [|c cs] eqn:Hcs.
  - split; [constructor|constructor].
  - destruct IH as [Hc Hrest].
    destruct (starts_with_continuation s) eqn:Hs.
    + split; [|exact Hrest].
      destruct c as [|b rest]; [contradiction|].
      cbn [is_chunk] in *. cbn. constructor; [|exact Hc].
      destruct s as [|b' s']; [discriminate|].
      cbn [chars] in Hcs. cbn [starts_with_continuation] in Hs.
      destruct (chars s') as [|c' cs'];
        [|destruct (starts_with_continuation s')]; inversion Hcs; subst; exact Hs.
    + split; [constructor|]. constructor; [|exact Hrest].
      split; [exact Hc|].
      destruct s as [|b' s']; [discriminate|].
      cbn [chars] in Hcs. cbn [starts_with_continuation] in Hs.
      destruct (chars s') as [|c' cs'];
        [|destruct (starts_with_continuation s')]; inversion Hcs; subst; exact Hs.
Qed.

Lemma separated_take (n : nat) (cs : list string) : separated cs → separated (take n cs).
Proof.
  destruct cs as [|c rest]; [by rewrite take_nil|].
  destruct n as [|n]; [intros _; exact I|].
  intros [Hc Hrest]. split; [exact Hc|]. by apply Forall_take.
Qed.

Lemma join_starts_new (cs : list string) :
  Forall (λ c, is_chunk c ∧ starts_with_continuation c = false) cs →
  starts_with_continuation (join cs) = false.
Proof.
  destruct cs as [|c rest]; [reflexivity|].
  intros H. inversion H as [|? ? [Hc Hs] _]; subst. rewrite join_cons.
  destruct c as [|a c']; [contradiction|]. exact Hs.
Qed.

Lemma chars_join_tail (cs : list string) :
  Forall (λ c, is_chunk c ∧ starts_with_continuation c = false) cs →
  chars (join cs) = cs.
Proof.
  induction 1 as [|c rest [Hc _] Hrest IH]; [reflexivity|].
  rewrite join_cons, (chars_chunk_app c (join rest) Hc (join_starts_new rest Hrest)).
  rewrite IH. reflexivity.
Qed.

(** Cutting a text at a character boundary and cutting the result again
    gives the same characters. *)
Lemma chars_join (cs : list string) : separated cs → chars (join cs) = cs.
Proof.
  destruct cs as [|c rest]; [reflexivity|]. intros [Hc Hrest].
  rewrite join_cons, (chars_chunk_app c (join rest) Hc (join_starts_new rest Hrest)).
  rewrite (chars_join_tail rest Hrest). reflexivity.
Qed.

Lemma chars_app_new (x y : string) :
  starts_with_continuation y = false → chars (x ++ y) = (chars x ++ chars y)%list.
Proof.
  intros Hy.
  rewrite <- (join_chars x) at 1.
  pose proof (chars_separated x) as Hsep.
  induction (chars x) as [|c rest IH].
  - reflexivity.
  - destruct Hsep as [Hc Hrest]. rewrite join_cons.
    assert (Happ : ∀ a b d : string, (a ++ b) ++ d = a ++ (b ++ d)).
    { clear. intros a b d. induction a as [|ch a IHa]; [reflexivity|].
      change (String ch ((a ++ b) ++ d) = String ch (a ++ (b ++ d))). by rewrite IHa. }
    rewrite Happ.
    assert (Hnew : starts_with_continuation (join rest ++ y) = false).
    { destruct rest as [|c' rest']; [exact Hy|].
      inversion Hrest as [|? ? [Hc' Hs'] _]; subst. rewrite join_cons.
      destruct c' as [|a' c'']; [contradiction|]. exact Hs'. }
    rewrite (chars_chunk_app c _ Hc Hnew).
    cbn [app]. f_equal.
    destruct rest as [|c' rest']; [reflexivity|].
    apply IH. inversion Hrest as [|? ? [Hc' _] Hrest']; subst.
    split; [exact Hc'|exact Hrest'].
Qed.

(** X17: the text column of a ledger row is short.  A text of at most 100
    characters is logged as it is; a longer one is logged as its first 100
    characters followed by "...", which makes 103 characters. *)
Theorem text_excerpt_bounded (text : string) :
  ((len text ≤ 100)%nat → App.text_excerpt text = text) ∧
  ((100 < len text)%nat →
     App.text_excerpt text = slice_to 100 text ++ "..." ∧
     chars (App.text_excerpt text) = (take 100 (chars text) ++ ["."; "."; "."])%list ∧
     len (App.text_excerpt text) = 103%nat) ∧
  (len (App.text_excerpt text) ≤ 103)%nat.
Proof.
  assert (Hlong : (100 < len text)%nat →
            App.text_excerpt text = slice_to 100 text ++ "..." ∧
            chars (App.text_excerpt text) = (take 100 (chars text) ++ ["."; "."; "."])%list ∧
            len (App.text_excerpt text) = 103%nat).
  { intros Hgt. unfold App.text_excerpt.
    destruct (decide (100 < len text)%nat) as [_|Hn]; [|contradiction].
    split; [reflexivity|].
    assert (Hchars : chars (slice_to 100 text ++ "...")
                     = (take 100 (chars text) ++ ["."; "."; "."])%list).
    { rewrite chars_app_new by reflexivity. unfold slice_to.
      rewrite (chars_join _ (separated_take 100 _ (chars_separated text))).
      reflexivity. }
    split; [exact Hchars|].
    unfold len in *. rewrite Hchars, length_app, length_take. cbn [length]. lia. }
  split_and!.
  - intros Hle. unfold App.text_excerpt.
    destruct (decide (100 < len text)%nat) as [Hgt|_]; [lia|reflexivity].
  - exact Hlong.
  - destruct (decide (100 < len text)%nat) as [Hgt|Hle].
    + destruct (Hlong Hgt) as (_ & _ & ->). lia.
    + unfold App.text_excerpt.
      destruct (decide (100 < len text)%nat) as [Hgt|_]; [contradiction|lia].
Qed.

Lemma text_excerpt_bounded_witness : App.text_excerpt "Hello world" = "Hello world".
Proof.
  apply (proj1 (text_excerpt_bounded "Hello world")).
  vm_compute. lia.
Defined.

End Excerpt.

(** * Device selection *)

Section Devices.

Import DeviceUtils.

(** X18: [get_device_info] and [get_optimal_device] choose alike: CUDA
    when it is available, else MPS when torch has it and it is available,
    else the CPU.  They differ on a torch without [torch.backends.mps] and
    without CUDA only: there [get_device_info], which asks [hasattr]
    first, reports "cpu", while [get_optimal_device] raises
    [AttributeError]. *)
Theorem default_device_agreement (h : Host) (t : Torch) :
  match get_optimal_device t with
  | Ret d => info_default_device (get_device_info h t) = device_type d
  | Raise e =>
      exn_cls e = AttributeError ∧
      cuda_is_available t = false ∧ backends_mps t = None ∧
      info_default_device (get_device_info h t) = "cpu"
  end.
Proof.
  unfold get_optimal_device, get_device_info. cbn [info_default_device].
  destruct (cuda_is_available t); [reflexivity|].
  destruct (backends_mps t) as [[|]|]; cbn [default from_option id exn_cls];
    try reflexivity.
  split_and!; reflexivity.
Qed.

(** The device report is consistent about CUDA: without CUDA it has
    no "cuda_devices" entry and counts 0 devices; with CUDA it lists as
    many devices as it counts, the i-th entry carrying the name, memory
    (over 1024**3) and compute capability of device i. *)
Lemma cuda_devices_listed (h : Host) (t : Torch) :
  let info := get_device_info h t in
  match info_cuda_devices info with
  | None => info_cuda_available info = false ∧ info_cuda_device_count info = 0%nat
  | Some devices =>
      info_cuda_available info = true ∧
      length devices = info_cuda_device_count info ∧
      ∀ i, (i < info_cuda_device_count info)%nat →
           devices !! i =
             Some {| dev_name := props_name (cuda_get_device_properties t i);
                     dev_total_memory_gb :=
                       {| num := props_total_memory (cuda_get_device_properties t i);
                          den := 1073741824 |};
                     dev_major := props_major (cuda_get_device_properties t i);
                     dev_minor := props_minor (cuda_get_device_properties t i) |}
  end.
Proof.
  cbv zeta. unfold get_device_info.
  cbn [info_cuda_devices info_cuda_available info_cuda_device_count].
  destruct (cuda_is_available t); [|split; reflexivity].
  split_and!; [reflexivity|by rewrite length_fmap, length_seq|].
  intros i Hi. rewrite list_lookup_fmap, lookup_seq_lt by exact Hi. reflexivity.
Qed.

Example old_torch_has_no_optimal_device :
  get_optimal_device old_torch
    = Raise (Exn AttributeError "module 'torch.backends' has no attribute 'mps'") ∧
  info_default_device (get_device_info some_host old_torch) = "cpu" ∧
  info_default_device_name (get_device_info some_host old_torch) = "CPU (8 cores)".
Proof. split_and!; vm_compute; reflexivity. Qed.

Example mac_torch_uses_mps :
  get_optimal_device mac_torch = Ret Mps ∧
  info_default_device (get_device_info some_host mac_torch) = "mps".
Proof. split; reflexivity. Qed.

End Devices.
